(** * blockchainAnalysis: node-directory classification and aggregation

    A shallow embedding of the classification, aggregation, fetching and
    legend-filtering code of the per-network analysis scripts, with the
    properties of the repository's specification stated over it.

    Conventions of the embedding:
    - a Python [str] is a Rocq [string]; [lower], [strip] and [int] are
      modelled on ASCII characters (other bytes pass through [lower]
      unchanged and are neither whitespace nor digits);
    - a [collections.Counter] (and a plain dict used as one) is an
      association list in insertion order, which is the order of
      [items()];
    - a two-column DataFrame [Category, Count] is a list of rows;
    - code that can raise returns an [outcome]; [try/except] is written
      out as a match on the exception class;
    - external services (the HTTP library, the GeoIP reader, pandas'
      [sort_values]) are parameters of the functions that call them. *)

From Stdlib Require Import ZArith Ascii String List Permutation Sorted Lia.
From stdpp Require Import base decidable option list sorting strings gmap.

Local Open Scope string_scope.
Local Open Scope list_scope.
Local Open Scope Z_scope.
Local Set Warnings "-register-all".

(* ================================================================== *)
(** * Python primitives *)
(* ================================================================== *)

Module Py.

(** ** Exceptions *)

(** The exception classes the modelled code can meet. All of them
    derive from [Exception]; signals that derive from [BaseException]
    only, such as [KeyboardInterrupt], are not results of the modelled
    calls. *)
Inductive exn : Type :=
| ConnectionError            (* requests.ConnectionError *)
| Timeout                    (* requests.Timeout *)
| HTTPError                  (* requests.HTTPError, from raise_for_status *)
| RequestsJSONDecodeError    (* requests.exceptions.JSONDecodeError *)
| JSONDecodeError            (* json.JSONDecodeError *)
| ValueError
| TypeError
| AttributeError
| AddressNotFoundError       (* geoip2.errors.AddressNotFoundError *)
| RuntimeError.

(** [isinstance(e, requests.RequestException)]. *)
Definition isinstance_RequestException (e : exn) : bool :=
  match e with
  | ConnectionError | Timeout | HTTPError | RequestsJSONDecodeError => true
  | _ => false
  end.

(** [isinstance(e, json.JSONDecodeError)]: the class of the [json]
    module and the class of [requests] that inherits from it. *)
Definition isinstance_JSONDecodeError (e : exn) : bool :=
  match e with
  | JSONDecodeError | RequestsJSONDecodeError => true
  | _ => false
  end.

(** [isinstance(e, ValueError)]. *)
Definition isinstance_ValueError (e : exn) : bool :=
  match e with
  | ValueError | JSONDecodeError | RequestsJSONDecodeError => true
  | _ => false
  end.

(** The result of running a piece of Python code. *)
Inductive outcome (A : Type) : Type :=
| Return (a : A)
| Raise (e : exn).
Arguments Return {A} a.
Arguments Raise {A} e.

Definition bind {A B} (m : outcome A) (k : A -> outcome B) : outcome B :=
  match m with
  | Return a => k a
  | Raise e => Raise e
  end.

(** [try: body  except <cls>: handler]. *)
Definition try_except {A} (body : outcome A) (cls : exn -> bool)
           (handler : exn -> outcome A) : outcome A :=
  match body with
  | Return a => Return a
  | Raise e => if cls e then handler e else Raise e
  end.

(** ** Values read from JSON *)

Inductive value : Type :=
| VNone
| VStr (s : string)
| VList (l : list value)
| VOther.                     (* numbers, booleans, objects *)

(** ** Characters *)

Definition code (c : ascii) : N := N_of_ascii c.

Definition is_upper (c : ascii) : bool :=
  ((65 <=? code c) && (code c <=? 90))%N.

Definition is_digit (c : ascii) : bool :=
  ((48 <=? code c) && (code c <=? 57))%N.

(** [str.isspace] on ASCII: tab, LF, VT, FF, CR, FS, GS, RS, US, space. *)
Definition is_space (c : ascii) : bool :=
  (((9 <=? code c) && (code c <=? 13))
   || ((28 <=? code c) && (code c <=? 32)))%N.

Definition lower_char (c : ascii) : ascii :=
  if is_upper c then ascii_of_N (code c + 32) else c.

(** ** Strings *)

(** [s.lower()]. *)
Fixpoint lower (s : string) : string :=
  match s with
  | EmptyString => EmptyString
  | String c s' => String (lower_char c) (lower s')
  end.

(** [s.startswith(p)]. *)
Fixpoint startswith (p s : string) : bool :=
  match p, s with
  | EmptyString, _ => true
  | String _ _, EmptyString => false
  | String a p', String b s' => Ascii.eqb a b && startswith p' s'
  end.

(** [v in s]. *)
Fixpoint contains (v s : string) : bool :=
  startswith v s ||
  match s with
  | EmptyString => false
  | String _ s' => contains v s'
  end.

(** [s.replace(old, new)] for a non-empty [old]: the occurrences are
    taken from left to right and do not overlap; [skip] counts the
    characters of a matched occurrence still to be consumed. *)
Fixpoint replace_from (old new : string) (skip : nat) (s : string) : string :=
  match s with
  | EmptyString => EmptyString
  | String c s' =>
      match skip with
      | S k => replace_from old new k s'
      | O =>
          if startswith old s
          then new +:+ replace_from old new (Nat.pred (String.length old)) s'
          else String c (replace_from old new O s')
      end
  end.

Definition replace (old new s : string) : string := replace_from old new O s.

Fixpoint lstrip_by (p : ascii -> bool) (s : string) : string :=
  match s with
  | EmptyString => EmptyString
  | String c s' => if p c then lstrip_by p s' else s
  end.

Fixpoint rstrip_by (p : ascii -> bool) (s : string) : string :=
  match s with
  | EmptyString => EmptyString
  | String c s' =>
      match rstrip_by p s' with
      | EmptyString => if p c then EmptyString else String c EmptyString
      | r => String c r
      end
  end.

(** [s.strip()]. *)
Definition strip (s : string) : string := rstrip_by is_space (lstrip_by is_space s).

(** [s.strip(ch)] for a one-character argument. *)
Definition strip_char (ch : ascii) (s : string) : string :=
  rstrip_by (Ascii.eqb ch) (lstrip_by (Ascii.eqb ch) s).

(** [s.split(sep)] for a one-character separator. *)
Fixpoint split (sep : ascii) (s : string) : list string :=
  match s with
  | EmptyString => [EmptyString]
  | String c s' =>
      if Ascii.eqb c sep then EmptyString :: split sep s'
      else match split sep s' with
           | hd :: tl => String c hd :: tl
           | [] => [String c EmptyString]
           end
  end.

(** ** [int(s)] on a string, base 10 *)

(** The argument may carry white space at both ends and one sign, and
    consists of ASCII digits with single underscores between them.
    Digits of other scripts are not modelled. *)

(** The white space that [int] skips at the ends of its argument: tab,
    LF, VT, FF, CR and space. Unlike [str.strip], [int] does not skip
    the separators of codes 28 to 31. *)
Definition is_int_space (c : ascii) : bool :=
  (((9 <=? code c) && (code c <=? 13)) || (code c =? 32))%N.

(** Digits with single underscores between them; [prev] tells whether
    the previous character was a digit. *)
Fixpoint parse_digits (acc : Z) (prev : bool) (s : string) : option Z :=
  match s with
  | EmptyString => if prev then Some acc else None
  | String c s' =>
      if is_digit c
      then parse_digits (10 * acc + Z.of_N (code c - 48)) true s'
      else if Ascii.eqb c "_" && prev
           then match s' with
                | String d _ => if is_digit d then parse_digits acc false s' else None
                | EmptyString => None
                end
           else None
  end.

(** The number of digits of a string. *)
Fixpoint digit_count (s : string) : nat :=
  match s with
  | EmptyString => O
  | String c s' => if is_digit c then S (digit_count s') else digit_count s'
  end.

(** CPython's default bound on the number of digits of the argument
    of [int]: a longer argument raises [ValueError]. *)
Definition max_str_digits : nat := 4300.

(** The number that [int] reads, if it reads one. *)
Definition parse_int (s : string) : option Z :=
  let body := rstrip_by is_int_space (lstrip_by is_int_space s) in
  if (max_str_digits <? digit_count body)%nat then None
  else match body with
       | String "+" r => parse_digits 0 false r
       | String "-" r => Z.opp <$> parse_digits 0 false r
       | _ => parse_digits 0 false body
       end.

Definition int (s : string) : outcome Z :=
  match parse_int s with
  | Some n => Return n
  | None => Raise ValueError
  end.

End Py.

Import Py.

(* ================================================================== *)
(** * Count tables *)
(* ================================================================== *)

(** A row [(Category, Count)] of a distribution table. *)
Definition row : Type := string * Z.

(** A DataFrame with the columns [Category] and [Count]. *)
Definition table : Type := list row.

Definition category (r : row) : string := fst r.
Definition count (r : row) : Z := snd r.

(** [df['Count'].sum()]. *)
Definition sum_counts (t : table) : Z := foldr (fun r acc => count r + acc) 0 t.
Arguments sum_counts : simpl never.

(** [counts[key] += 1] on a [Counter], and [d[key] = d.get(key, 0) + 1]
    on a dict: an existing key keeps its position, a new key goes last. *)
Fixpoint incr (key : string) (counts : table) : table :=
  match counts with
  | [] => [(key, 1)]
  | (k, n) :: rest =>
      if String.eqb k key then (k, n + 1) :: rest else (k, n) :: incr key rest
  end.

(** [counts.get(key, 0)]. *)
Fixpoint get_count (key : string) (counts : table) : Z :=
  match counts with
  | [] => 0
  | (k, n) :: rest => if String.eqb k key then n else get_count key rest
  end.

(** Counting a sequence of labels, as a loop of [counts[label] += 1]. *)
Definition count_labels (labels : list string) : table :=
  fold_left (fun counts label => incr label counts) labels [].

(** [df[df['Count'] > threshold]]. *)
Definition filter_count_gt (threshold : Z) (t : table) : table :=
  List.filter (fun r => (threshold <? count r)%Z) t.

(** The order of a table sorted by [Count], descending. *)
Definition count_ge (r1 r2 : row) : Prop := count r2 <= count r1.

Global Instance count_ge_dec : RelDecision count_ge.
Proof. intros r1 r2. unfold count_ge. apply _. Defined.

Global Instance count_ge_trans : Transitive count_ge.
Proof. intros x y z. unfold count_ge. lia. Qed.

Global Instance count_ge_total : Total count_ge.
Proof. intros x y. unfold count_ge. lia. Qed.

(** [df.sort_values(by='Count', ascending=False)]. The scripts call it
    with pandas' default [kind]; the sorting algorithm belongs to
    pandas, so the calls are modelled by what every [kind] provides:
    the rows of the argument, reordered, with the counts descending. *)
Class SortValues : Type := {
  sort_values : table -> table;
  sort_values_perm : forall t, sort_values t ≡ₚ t;
  sort_values_sorted : forall t, Sorted count_ge (sort_values t);
}.

(** A merge sort is one such implementation. *)
Definition merge_sort_values : SortValues := {|
  sort_values := merge_sort count_ge;
  sort_values_perm := merge_sort_Permutation count_ge;
  sort_values_sorted := Sorted_merge_sort count_ge;
|}.

(** Another one sorts the reversed table. *)
Program Definition reversed_sort_values : SortValues := {|
  sort_values := fun t => merge_sort count_ge (reverse t);
|}.
Next Obligation.
  intros t. cbn. rewrite merge_sort_Permutation. apply reverse_Permutation.
Qed.
Next Obligation. intros t. cbn. apply Sorted_merge_sort, _. Qed.

(** Adjacent rows of a table in descending order of [Count]: the count
    of row [i] is at least the count of row [i + 1]. *)
Definition adjacent_descending (t : table) : Prop :=
  forall (i : nat) (r1 r2 : row),
    t !! i = Some r1 -> t !! S i = Some r2 -> count r2 <= count r1.

(** No count of a table is negative. *)
Definition nonnegative_counts (t : table) : Prop := Forall (fun r => 0 <= count r) t.

(** Counts are positive in a table built by counting. *)
Definition positive_counts (t : table) : Prop := Forall (fun r => 0 < count r) t.

(** The number of times a label occurs in a sequence of labels. *)
Definition occurrences (label : string) (labels : list string) : Z :=
  Z.of_nat (length (List.filter (String.eqb label) labels)).

(* ================================================================== *)
(** * scripts/common/utils.py *)
(* ================================================================== *)

Module Utils.

(** The literal of [CountryMapper.COUNTRY_MAPPING], entry by entry. *)
Definition COUNTRY_MAPPING_items : list (string * string) :=
  [ ("US", "United States"); ("DE", "Germany"); ("FR", "France");
    ("CA", "Canada"); ("GB", "United Kingdom"); ("NL", "Netherlands");
    ("JP", "Japan"); ("SG", "Singapore"); ("RU", "Russia");
    ("FI", "Finland"); ("CH", "Switzerland"); ("CN", "China");
    ("KR", "South Korea"); ("AU", "Australia"); ("HK", "Hong Kong");
    ("UA", "Ukraine"); ("IT", "Italy"); ("SE", "Sweden");
    ("BR", "Brazil"); ("ES", "Spain"); ("VN", "Vietnam");
    ("IN", "India"); ("TW", "Taiwan"); ("PL", "Poland");
    ("IE", "Ireland"); ("ZA", "South Africa"); ("NZ", "New Zealand");
    ("CZ", "Czechia"); ("LT", "Lithuania"); ("ID", "Indonesia");
    ("NO", "Norway"); ("BE", "Belgium"); ("IR", "Iran");
    ("AT", "Austria"); ("EE", "Estonia"); ("TR", "Turkey");
    ("MY", "Myanmar"); ("HU", "Hungary"); ("MX", "Mexico");
    ("TH", "Thailand"); ("SI", "Slovenia"); ("IL", "Israel");
    ("RO", "Romania"); ("NG", "Nigeria"); ("PT", "Portugal");
    ("SK", "Slovakia"); ("RS", "Serbia"); ("BG", "Bulgaria");
    ("LV", "Latvia") ].

(** The dict built from the literal. *)
Definition COUNTRY_MAPPING : gmap string string :=
  list_to_map COUNTRY_MAPPING_items.

(** [CountryMapper.get_country_name]:
    [COUNTRY_MAPPING.get(code, code)]. *)
Definition get_country_name (code : string) : string :=
  default code (COUNTRY_MAPPING !! code).

(** [DataProcessor.extract_client_name]. A value that is not a string
    has no [strip]: the bare [except] returns ['Unknown']. *)
Definition extract_client_name (version_string : value) : string :=
  match version_string with
  | VStr s => hd "" (split ":" (strip_char "/" s))
  | _ => "Unknown"
  end.

(** ** [APIUtils.make_request] *)

Section make_request.

(** The parsed JSON document. *)
Variable J : Type.

(** What the code uses of a [requests.Response]. *)
Record response : Type := {
  raise_for_status : outcome unit;
  json : outcome J;
}.

(** [requests.request(method, url, **kwargs)]. *)
Variable requests_request : string -> string -> outcome response.

(** The body of the [try]. *)
Definition make_request_try (url method : string) : outcome J :=
  bind (requests_request method url) (fun response =>
  bind (raise_for_status response) (fun _ =>
  json response)).

(** The function returns its result together with the lines it prints.
    The first handler takes the instances of [RequestException], the
    second one every other [Exception]. *)
Definition make_request (url method : string) : outcome (option J) * list string :=
  match make_request_try url method with
  | Return data => (Return (Some data), [])
  | Raise e =>
      if isinstance_RequestException e
      then (Return None, ["API request error"])
      else (Return None, ["Unexpected error"])
  end.

End make_request.

Arguments raise_for_status {J} _.
Arguments json {J} _.

End Utils.

(* ================================================================== *)
(** * scripts/node_counts/total_node_count_fetch_data.py *)
(* ================================================================== *)

Module NodeCounts.

Section fetcher.

Variable J : Type.

(** The result of the [n]-th call (from 0) of
    [requests.request(method=method, url=url, timeout=10, **kwargs)]. *)
Variable requests_request : nat -> outcome (Utils.response J).

(** What the function does besides returning. *)
Inductive event : Type :=
| Requested (attempt : nat)
| Slept (seconds : nat)          (* time.sleep *)
| Logged (message : string).     (* logger.error *)

(** The body of the [try] at one attempt. *)
Definition attempt_try (attempt : nat) : outcome J :=
  bind (requests_request attempt) (fun response =>
  bind (Utils.raise_for_status response) (fun _ =>
  Utils.json response)).

(** [for attempt in <todo>: ...]; a loop that ends without [return]
    makes the function return [None]. *)
Fixpoint attempts (retries : nat) (todo : list nat) : outcome (option J) * list event :=
  match todo with
  | [] => (Return None, [])
  | attempt :: rest =>
      match attempt_try attempt with
      | Return data => (Return (Some data), [Requested attempt])
      | Raise e =>
          if isinstance_RequestException e then
            if Nat.eqb attempt (retries - 1)
            then (Return None, [Requested attempt; Logged "Request error"])
            else
              let '(result, events) := attempts retries rest in
              (result, Requested attempt :: Slept (1 * (attempt + 1)) :: events)
          else if isinstance_JSONDecodeError e
          then (Return None, [Requested attempt; Logged "JSON parsing error"])
          else (Raise e, [Requested attempt])
      end
  end.

(** [BlockchainNodesFetcher._make_request]: [retries = 3] and
    [range(retries)]. *)
Definition _make_request : outcome (option J) * list event :=
  let retries := 3%nat in
  attempts retries (seq 0 retries).

End fetcher.

(** The attempts made and the seconds slept, read off the events. *)
Definition requests_made (events : list event) : nat :=
  length (List.filter (fun e => match e with Requested _ => true | _ => false end) events).

Definition seconds_slept (events : list event) : list nat :=
  omap (fun e => match e with Slept s => Some s | _ => None end) events.

(** A transport failure of the [n]-th call: the request itself or
    [raise_for_status] raises an instance of [RequestException]. *)
Definition transport_failure {J} (requests_request : nat -> outcome (Utils.response J))
           (n : nat) : Prop :=
  exists e, isinstance_RequestException e = true /\
    (requests_request n = Raise e \/
     exists response, requests_request n = Return response /\
                      Utils.raise_for_status response = Raise e).

(** ** [fetch_cardano_nodes] *)

Section paging.

(** A pool of a page. *)
Variable pool : Type.

(** The result of [_make_request] for a page number: the list of the
    pools of the page, or [None]. *)
Variable request_page : nat -> option (list pool).

(** [while True: ...] from a page on, with the pools collected so far.
    The loop has no bound of its own; [fuel] bounds the number of
    requests, and [None] is returned when it is used up before a
    [break]. *)
Fixpoint collect_pools (fuel page : nat) (all_pools : list pool) : option (list pool) :=
  match fuel with
  | O => None
  | S fuel' =>
      match request_page page with
      | None => Some all_pools
      | Some [] => Some all_pools
      | Some data =>
          if (length data <? 100)%nat then Some (all_pools ++ data)
          else collect_pools fuel' (S page) (all_pools ++ data)
      end
  end.

(** [BlockchainNodesFetcher.fetch_cardano_nodes], for a number of
    requests that it may make: [Some] of the value it returns, or
    [None] when it has not returned within that number. *)
Definition fetch_cardano_nodes (fuel : nat) : option (option nat) :=
  match collect_pools fuel 1 [] with
  | None => None
  | Some [] => Some None
  | Some all_pools => Some (Some (length all_pools))
  end.

(** The number of pools on a page, zero when the request fails. *)
Definition page_size (page : nat) : nat :=
  match request_page page with
  | Some data => length data
  | None => 0
  end.

End paging.

(** ** [fetch_all_nodes] *)

(** The names of the dict [fetchers], in its order. *)
Definition network_names : list string :=
  [ "Algorand"; "Bitcoin"; "Bitcoin Cash"; "Cardano"; "Dogecoin"; "Ethereum";
    "Ethereum Classic"; "Litecoin"; "NEAR"; "Polkadot"; "Polygon"; "Ripple";
    "Solana"; "Stellar"; "Tezos" ].

(** The body of the loop, on [node_counts] and the names logged as
    errors: [if count := fetcher(): node_counts[name] = count] under
    [try], where a count of zero and [None] are false. *)
Definition store_count (state : gmap string Z * list string)
           (fetcher : string * outcome (option Z)) : gmap string Z * list string :=
  let '(node_counts, errors) := state in
  let '(name, result) := fetcher in
  match result with
  | Return (Some count) =>
      if count =? 0 then (node_counts, errors)
      else (<[name := count]> node_counts, errors)
  | Return None => (node_counts, errors)
  | Raise _ => (node_counts, errors ++ [name])
  end.

(** [BlockchainNodesFetcher.fetch_all_nodes]; each fetcher is given
    with its name and the result of calling it. *)
Definition fetch_all_nodes (fetchers : list (string * outcome (option Z)))
  : gmap string Z * list string :=
  fold_left store_count fetchers (∅, []).

End NodeCounts.

(* ================================================================== *)
(** * scripts/blockchains/ethereum.py *)
(* ================================================================== *)

Module Ethereum.

(** [all(0 <= int(part) <= 255 for part in parts)]: the generator is
    consumed up to the first false test; an exception of [int] leaves
    it. *)
Fixpoint all_in_range (parts : list string) : outcome bool :=
  match parts with
  | [] => Return true
  | part :: rest =>
      bind (int part) (fun n =>
      if (0 <=? n) && (n <=? 255) then all_in_range rest else Return false)
  end.

(** [EthereumAnalyzer._is_valid_ip]. *)
Definition _is_valid_ip (ip : string) : outcome bool :=
  let parts := split "." ip in
  if negb (Nat.eqb (length parts) 4) then Return false
  else try_except (all_in_range parts) isinstance_ValueError
                  (fun _ => Return false).

(** [for i, part in enumerate(parts)]: [i + 1 < len(parts)] holds when
    a part follows, and [parts[i + 1]] is that part. *)
Fixpoint scan_parts (parts : list string) (ips : list string) : outcome (list string) :=
  match parts with
  | [] => Return ips
  | part :: rest =>
      match rest with
      | ip :: _ =>
          if String.eqb part "ip4"
          then bind (_is_valid_ip ip) (fun valid =>
               scan_parts rest (if valid then ips ++ [ip] else ips))
          else scan_parts rest ips
      | [] => scan_parts rest ips
      end
  end.

(** [for addr in maddrs]. *)
Fixpoint scan_addrs (maddrs : list value) (ips : list string) : outcome (list string) :=
  match maddrs with
  | [] => Return ips
  | VStr addr :: rest =>
      bind (scan_parts (split "/" addr) ips) (fun ips' => scan_addrs rest ips')
  | _ :: rest => scan_addrs rest ips
  end.

(** [EthereumAnalyzer._extract_ips]. [list(set(ips))] lists the
    elements of a set in an order Python does not fix; the elements of
    a [gset] in its own order stand for it. *)
Definition _extract_ips (maddrs : value) : outcome (list string) :=
  match maddrs with
  | VList addrs =>
      bind (scan_addrs addrs []) (fun ips =>
      Return (elements (list_to_set ips : gset string)))
  | _ => Return []
  end.

(** What the docstring of [_is_valid_ip] calls a valid address: four
    components between dots, each read by [int] as a number from 0 to
    255. *)
Definition byte_component (part : string) : Prop :=
  exists n, int part = Return n /\ 0 <= n <= 255.

Definition four_byte_components (ip : string) : Prop :=
  exists a b c d,
    split "." ip = [a; b; c; d]
    /\ byte_component a /\ byte_component b
    /\ byte_component c /\ byte_component d.

(** Every address of a list is accepted by [_is_valid_ip]. *)
Definition all_valid (ips : list string) : Prop :=
  Forall (fun ip => _is_valid_ip ip = Return true) ips.

(** A row of the [nodes] table read by [fetch_data]; [None] is a
    missing value. *)
Record node : Type := {
  name : option string;
  country_name : option string;
}.

(** [EthereumAnalyzer.process_geographic_distribution]; [data] is
    [self.data]. *)
Definition process_geographic_distribution `{SortValues}
           (data : option (list node)) : table :=
  match data with
  | None => []
  | Some rows => sort_values (count_labels (omap country_name rows))
  end.

(** A line of the raw file, as [process_hosting_distribution] sees it. *)
Inductive line : Type :=
| Blank                       (* [line.strip()] is empty *)
| Malformed                   (* [json.loads] raises [JSONDecodeError] *)
| NotAnObject                 (* a JSON document without [get] *)
| Node (maddrs : value).      (* [node_data.get('Maddrs', [])] *)

(** The chain of [replace] calls and the [strip] applied to an
    organization name. *)
Definition clean_org (org : string) : string :=
  strip (replace " Corp." ""
        (replace " Corporation" ""
        (replace " Inc." ""
        (replace " Ltd." ""
        (replace " LLC" "" org))))).

Section hosting.

Context `{SortValues}.

(** [reader.asn(ip).autonomous_system_organization], for a database
    that has been opened: the lookup raises for an address the
    database does not hold, and the organization can be [None]. *)
Variable asn : string -> outcome (option string).

(** The body of [for ip in ips], with its [except Exception: continue]. *)
Definition count_ip (hosting_counts : table) (ip : string) : table :=
  match asn ip with
  | Return (Some org) =>
      if String.eqb org "" then hosting_counts
      else incr (clean_org org) hosting_counts
  | Return None => hosting_counts
  | Raise _ => hosting_counts
  end.

(** The loop over the lines of the file. An exception that is not a
    [JSONDecodeError] leaves the loop for the outer handler, with the
    counts made so far. *)
Fixpoint read_lines (lines : list line) (hosting_counts : table) : table * option exn :=
  match lines with
  | [] => (hosting_counts, None)
  | Blank :: rest => read_lines rest hosting_counts
  | Malformed :: rest => read_lines rest hosting_counts
  | NotAnObject :: _ => (hosting_counts, Some AttributeError)
  | Node VNone :: rest => read_lines rest hosting_counts
  | Node maddrs :: rest =>
      match _extract_ips maddrs with
      | Return ips => read_lines rest (fold_left count_ip ips hosting_counts)
      | Raise e =>
          if isinstance_JSONDecodeError e then read_lines rest hosting_counts
          else (hosting_counts, Some e)
      end
  end.

(** [EthereumAnalyzer.process_hosting_distribution]; [raw] is [None]
    when the raw file does not exist. *)
Definition process_hosting_distribution (raw : option (list line)) : table :=
  match raw with
  | None => []
  | Some lines => sort_values (fst (read_lines lines []))
  end.

End hosting.

(** The addresses a line contributes. *)
Definition ips_of_line (l : line) : list string :=
  match l with
  | Node VNone => []
  | Node maddrs =>
      match _extract_ips maddrs with
      | Return ips => ips
      | Raise _ => []
      end
  | _ => []
  end.

(** The number of rows of the [nodes] table with a given country. *)
Definition nodes_in_country (country : string) (rows : list node) : Z :=
  Z.of_nat (length (List.filter
                      (fun n => bool_decide (country_name n = Some country)) rows)).

(** A multiaddress announces an address: the part ["ip4"] between
    slashes is followed by the address. *)
Definition announces (addr ip : string) : Prop :=
  exists i : nat,
    split "/" addr !! i = Some "ip4" /\ split "/" addr !! S i = Some ip.

(** ** [fetch_data_from_json] *)









End Ethereum.

(* ================================================================== *)
(** * scripts/blockchains/bitcoin.py *)
(* ================================================================== *)

Module Bitcoin.

(** The fields of a node entry of the snapshot that the analyzer
    reads, by their index in the entry; [None] is JSON [null]. *)
Record node_info : Type := {
  user_agent : option string;     (* node_info[1] *)
  hostname : option string;       (* node_info[5] *)
  country_code : option string;   (* node_info[7] *)
  asn : option string;            (* node_info[11] *)
}.

Definition valid_clients : list (string * string) :=
  [ ("Satoshi", "Bitcoin Core"); ("btcwire", "btcd");
    ("bcoin", "bcoin"); ("libbitcoin", "libbitcoin") ].

(** The fifth keyword of the source is not ASCII; it is given by its
    bytes. *)
Definition keyword_bytes : string :=
  string_of_list_ascii
    (List.map ascii_of_nat [239; 163; 191; 195; 188; 195; 180; 195; 168]%nat).

Definition invalid_keywords : list string :=
  [ "BTF"; "CKCoinD"; "Aurum"; "Statoshi"; keyword_bytes; "Ladybug";
    "Classic"; "ABC"; "Unlimited"; "Natasha" ].

(** [valid_clients[client_name]] under [client_name in valid_clients]. *)
Fixpoint lookup_client (client_name : string) (clients : list (string * string)) : option string :=
  match clients with
  | [] => None
  | (k, v) :: rest => if String.eqb k client_name then Some v else lookup_client client_name rest
  end.

(** The body of the loop of [process_client_distribution]. *)
Definition count_client (client_counts : table) (n : node_info) : table :=
  match user_agent n with
  | None => client_counts
  | Some version_string =>
      if String.eqb version_string "" then client_counts else
      let version_clean := strip_char "/" version_string in
      if contains "Knots" version_clean then incr "Bitcoin Knots" client_counts else
      let parts := split ":" version_clean in
      if (length parts <? 2)%nat then client_counts else
      let client_name := hd "" parts in
      if existsb (fun keyword => contains keyword version_clean) invalid_keywords
      then client_counts else
      match lookup_client client_name valid_clients with
      | Some client => incr client client_counts
      | None => client_counts
      end
  end.

(** [BitcoinAnalyzer.process_client_distribution]; [nodes] is
    [self.data['nodes'].values()], and [None] when there is no data. *)
Definition process_client_distribution `{SortValues}
           (nodes : option (list node_info)) : table :=
  match nodes with
  | None => []
  | Some nodes =>
      filter_count_gt 1 (sort_values (fold_left count_client nodes []))
  end.

(** The body of the country loop of [process_data]. *)
Definition count_country (country_counts : table) (n : node_info) : table :=
  match country_code n with
  | None => country_counts
  | Some country =>
      if negb (String.eqb country "")
         && negb (String.eqb country "null")
         && negb (String.eqb country "TOR")
      then incr country country_counts
      else country_counts
  end.

(** The geographic table built by [BitcoinAnalyzer.process_data]. *)
Definition process_data_geographic `{SortValues} (nodes : list node_info) : table :=
  sort_values (fold_left count_country nodes []).

(** The label under which the country loop of [process_data] counts a
    node, if it counts it. *)
Definition counted_country (n : node_info) : option string :=
  match country_code n with
  | None => None
  | Some country =>
      if negb (String.eqb country "")
         && negb (String.eqb country "null")
         && negb (String.eqb country "TOR")
      then Some country
      else None
  end.

(** The number of nodes of a snapshot with a given country code. *)
Definition nodes_in_country (country : string) (nodes : list node_info) : Z :=
  Z.of_nat (length (List.filter
                      (fun n => bool_decide (country_code n = Some country)) nodes)).

(** The names under which [process_client_distribution] counts. *)
Definition client_names : list string :=
  [ "Bitcoin Knots"; "Bitcoin Core"; "btcd"; "bcoin"; "libbitcoin" ].

(** [s.endswith(suffix)]. *)
Fixpoint endswith (suffix s : string) : bool :=
  String.eqb suffix s ||
  match s with
  | EmptyString => false
  | String _ s' => endswith suffix s'
  end.

(** The hosting label of a node in the hosting loop of [process_data]:
    [node_info[5] or 'Self-hosted/Unknown'], then the chain of
    [if]/[elif]. *)
Definition hosting_label (n : node_info) : string :=
  let hosting :=
    match hostname n with
    | Some h => if String.eqb h "" then "Self-hosted/Unknown" else h
    | None => "Self-hosted/Unknown"
    end in
  if endswith ".amazonaws.com" hosting then "Amazon Web Services"
  else if endswith ".googleusercontent.com" hosting then "Google Cloud Platform"
  else if contains "hetzner" (lower hosting) then "Hetzner"
  else if contains "netcup" (lower hosting) then "Netcup"
  else hosting.

(** [node_info[11] == "TOR"]. *)
Definition is_tor (n : node_info) : bool :=
  match asn n with
  | Some a => String.eqb a "TOR"
  | None => false
  end.

(** The body of the hosting loop of [process_data]. *)
Definition count_hosting (hosting_counts : table) (n : node_info) : table :=
  if is_tor n then hosting_counts
  else incr (hosting_label n) hosting_counts.

(** The hosting table built by [BitcoinAnalyzer.process_data]: the
    sorted counts without the row of ['Self-hosted/Unknown']. *)
Definition process_data_hosting `{SortValues} (nodes : list node_info) : table :=
  List.filter (fun r => negb (String.eqb (category r) "Self-hosted/Unknown"))
              (sort_values (fold_left count_hosting nodes [])).

(** The name under which the loop of [process_client_distribution]
    counts a node, if it counts it. *)
Definition client_label (n : node_info) : option string :=
  match user_agent n with
  | None => None
  | Some version_string =>
      if String.eqb version_string "" then None else
      let version_clean := strip_char "/" version_string in
      if contains "Knots" version_clean then Some "Bitcoin Knots" else
      if (length (split ":" version_clean) <? 2)%nat then None else
      if existsb (fun keyword => contains keyword version_clean) invalid_keywords
      then None
      else lookup_client (hd "" (split ":" version_clean)) valid_clients
  end.

(** The number of nodes counted under a client name. *)
Definition nodes_with_client (client : string) (nodes : list node_info) : Z :=
  Z.of_nat (length (List.filter
                      (fun n => bool_decide (client_label n = Some client)) nodes)).

(** The number of nodes outside Tor with a given hosting label. *)
Definition nodes_hosted_by (label : string) (nodes : list node_info) : Z :=
  Z.of_nat (length (List.filter
                      (fun n => bool_decide (is_tor n = false /\ hosting_label n = label))
                      nodes)).

End Bitcoin.

(* ================================================================== *)
(** * scripts/blockchains/solana.py *)
(* ================================================================== *)

Module Solana.

(** [known_providers], in the order of the dict literal, which is the
    order of [known_providers.items()]. *)
Definition known_providers : list (string * list string) :=
  [ ("OVH", ["OVH"; "OVH SAS"; "OVH Hosting"]);
    ("Hetzner", ["Hetzner"; "Hetzner Online"; "Hetzner Online GmbH"; "HETZNER"]);
    ("DigitalOcean", ["DIGITALOCEAN"; "DigitalOcean"; "DIGITALOCEAN-ASN"; "DIGITALOCEAN-N"]);
    ("Amazon AWS", ["Amazon"; "Amazon.com"; "AWS"; "AMAZON-AES"; "AMAZON-02";
                    "AMAZON-"; "Amazon Technologies"; "AMAZON"]);
    ("Google Cloud", ["Google"; "Google Cloud"; "GOOGLE"; "GCP"; "Google LLC"]);
    ("Microsoft Azure", ["Microsoft"; "Azure"; "Microsoft Corporation";
                         "MICROSOFT-CORP"; "MICROSOFT"]);
    ("Vultr", ["Vultr"; "Vultr Holdings"; "VULTR-AS"; "AS-VULTR"]);
    ("Linode", ["Linode"; "LINODE-AP"; "LINODE"; "Linode LLC"]);
    ("Equinix", ["Equinix"; "EQUINIX"; "PACKET"; "Packet Host"]);
    ("Alibaba", ["Alibaba"; "ALIBABA"; "Aliyun"]) ].

(** The keywords of the second test. *)
Definition excluded_keywords : list string :=
  [ "residential"; "university"; "college"; "school"; "home"; "telecom" ].

(** The chain of [replace] calls and the [strip]. *)
Definition strip_suffixes (org : string) : string :=
  strip (replace " AG" ""
        (replace " SA" ""
        (replace " Corp." ""
        (replace " Corporation" ""
        (replace " Inc." ""
        (replace " Ltd." ""
        (replace " LLC" "" org))))))).

(** [any(variation.lower() in org.lower() for variation in variations)]. *)
Definition any_variation (variations : list string) (org : string) : bool :=
  existsb (fun variation => contains (lower variation) (lower org)) variations.

(** [for provider, variations in known_providers.items(): ... break]:
    the provider counted, if one matched. *)
Fixpoint match_provider (providers : list (string * list string)) (org : string) : option string :=
  match providers with
  | [] => None
  | (provider, variations) :: rest =>
      if any_variation variations org then Some provider
      else match_provider rest org
  end.

(** [any(x in org.lower() for x in [...])]. *)
Definition excluded (org : string) : bool :=
  existsb (fun x => contains x (lower org)) excluded_keywords.

(** [v] occurs in [s] as a substring. *)
Definition occurs (v s : string) : Prop :=
  exists pre post, s = pre +:+ v +:+ post.

(** Some variant of a provider occurs in the organization name, the
    case of letters set aside. *)
Definition matches_provider (variations : list string) (org : string) : Prop :=
  exists variation, variation ∈ variations /\ occurs (lower variation) (lower org).

(** Some keyword of the exclusion list occurs in the organization
    name, the case of the letters of the name set aside. *)
Definition has_excluded_keyword (org : string) : Prop :=
  exists x, x ∈ excluded_keywords /\ occurs x (lower org).

(** The category under which a non-empty organization name is counted
    by [process_hosting_distribution], or [None] when the node is not
    counted. *)
Definition hosting_category (org : string) : option string :=
  let org := strip_suffixes org in
  match match_provider known_providers org with
  | Some provider => Some provider
  | None => if negb (excluded org) then Some org else None
  end.

(** The body of [if org:] on the counter. *)
Definition count_org (hosting_counts : table) (org : option string) : table :=
  match org with
  | None => hosting_counts
  | Some org =>
      if String.eqb org "" then hosting_counts
      else match hosting_category org with
           | Some label => incr label hosting_counts
           | None => hosting_counts
           end
  end.

(** ** The nodes of the cluster *)

(** An element of [self.data]: a JSON object, of which the code reads
    the keys ['gossip'] and ['version'] with [get] ([None] is an absent
    key), or a value without [get]. *)
Inductive node : Type :=
| NotADict
| Dict (gossip version : option value).

(** ** The client loop without the command line tool *)

(** The [if version:] branch on a non-empty string. *)
Definition version_label (version : string) : string :=
  if existsb (fun client => contains client (lower version)) ["jito"; "mev"]
  then "Jito Labs"
  else if existsb (fun client => contains client (lower version)) ["firedancer"; "jump"]
  then "Firedancer"
  else if contains "MEV" version || contains "Custom" version
  then "Custom/MEV Client"
  else "Solana Labs".

(** The label under which the loop that follows "Falling back to
    API-only processing" counts a node: [node.get('version',
    'Unknown')] on a dict, and ['Unknown'] for a false version and for
    every exception. *)
Definition api_client_label (n : node) : string :=
  match n with
  | NotADict => "Unknown"
  | Dict _ None => version_label "Unknown"
  | Dict _ (Some (VStr version)) =>
      if String.eqb version "" then "Unknown" else version_label version
  | Dict _ (Some _) => "Unknown"
  end.

Definition count_client_api (client_counts : table) (n : node) : table :=
  incr (api_client_label n) client_counts.

(** The columns [Category] and [Count] of the table of
    [SolanaAnalyzer.process_client_distribution] when no command line
    tool is found: the [try] raises before it counts anything, and the
    handler runs the loop above. *)
Definition process_client_distribution_api_only `{SortValues} (data : list node) : table :=
  sort_values (fold_left count_client_api data []).

Definition api_client_names : list string :=
  [ "Jito Labs"; "Firedancer"; "Custom/MEV Client"; "Solana Labs"; "Unknown" ].

(** The number of nodes with a given label. *)
Definition nodes_with_client (label : string) (data : list node) : Z :=
  Z.of_nat (length (List.filter
                      (fun n => bool_decide (api_client_label n = label)) data)).

(** ** The hosting loop *)

(** [node.get('gossip', '').split(':')[0]]. *)
Definition gossip_ip (n : node) : outcome string :=
  match n with
  | NotADict => Raise AttributeError
  | Dict None _ => Return (hd "" (split ":" ""))
  | Dict (Some (VStr gossip)) _ => Return (hd "" (split ":" gossip))
  | Dict (Some _) _ => Raise AttributeError
  end.

Section hosting.

(** [socket.inet_aton(ip)] accepts the address. *)
Variable inet_aton : string -> bool.

(** [reader.asn(ip).autonomous_system_organization]. *)
Variable asn : string -> outcome (option string).

(** The category under which the loop counts a node, if it counts it;
    every exception skips the node. *)
Definition hosting_label (n : node) : option string :=
  match gossip_ip n with
  | Raise _ => None
  | Return ip =>
      if inet_aton ip then
        match asn ip with
        | Return (Some org) =>
            if String.eqb org "" then None else hosting_category org
        | Return None => None
        | Raise _ => None
        end
      else None
  end.

(** The body of the loop. *)
Definition count_node (hosting_counts : table) (n : node) : table :=
  match gossip_ip n with
  | Raise _ => hosting_counts
  | Return ip =>
      if inet_aton ip then
        match asn ip with
        | Return org => count_org hosting_counts org
        | Raise _ => hosting_counts
        end
      else hosting_counts
  end.

(** The number of nodes counted under a category. *)
Definition nodes_hosted_by (label : string) (data : list node) : Z :=
  Z.of_nat (length (List.filter
                      (fun n => bool_decide (hosting_label n = Some label)) data)).

End hosting.

(** The columns [Category] and [Count] of the table of
    [SolanaAnalyzer.process_hosting_distribution]; [reader] is [None]
    when opening the database raises. *)
Definition process_hosting_distribution `{SortValues}
           (inet_aton : string -> bool)
           (reader : option (string -> outcome (option string)))
           (data : list node) : table :=
  match reader with
  | None => []
  | Some asn =>
      match fold_left (count_node inet_aton asn) data [] with
      | [] => []
      | hosting_counts => filter_count_gt 2 (sort_values hosting_counts)
      end
  end.

End Solana.

(* ================================================================== *)
(** * scripts/blockchains/ethereum_classic.py *)
(* ================================================================== *)

Module EthereumClassic.

(** What [process_hosting_distribution] meets in a node. *)
Inductive node : Type :=
| Broken                      (* the lookups raise *)
| NoOrg                       (* no ['ip_info'], or no ['org'] in it *)
| Org (org : option string).  (* [node['ip_info']['org']] *)

(** [org.split(' ', 1)[1]] for an [org] with a space. *)
Fixpoint after_first_space (org : string) : string :=
  match org with
  | EmptyString => EmptyString
  | String c rest => if Ascii.eqb c " " then rest else after_first_space rest
  end.

Definition provider_of (org : string) : string :=
  if contains " " org then after_first_space org else org.

(** The body of the loop. *)
Definition count_node (hosting_counts : table) (n : node) : table :=
  match n with
  | Broken => incr "Unknown" hosting_counts
  | NoOrg => incr "Unknown" hosting_counts
  | Org None => hosting_counts
  | Org (Some org) =>
      if String.eqb org "" then hosting_counts
      else incr (provider_of org) hosting_counts
  end.

(** Rounding of [n / d] to the nearest integer, halves to even, for
    [d > 0]. *)
Definition round_half_even (n d : Z) : Z :=
  let q := n / d in
  let r := n mod d in
  if 2 * r <? d then q
  else if d <? 2 * r then q + 1
  else if Z.even q then q else q + 1.

(** [(count / total * 100).round(2)], in hundredths of a percent. The
    quotient is taken exactly; the binary rounding of the floating
    point division is not modelled. *)
Definition percentage_hundredths (count total : Z) : Z :=
  round_half_even (count * 10000) total.

(** [others_threshold = 3.3], in hundredths. *)
Definition others_threshold : Z := 330.

(** [EthereumClassicAnalyzer.process_hosting_distribution], columns
    [Category] and [Count]. *)
Definition process_hosting_distribution `{SortValues} (data : list node) : table :=
  let hosting_counts := fold_left count_node data [] in
  match hosting_counts with
  | [] => []
  | _ =>
      let df := sort_values hosting_counts in
      let total := sum_counts df in
      let below r := percentage_hundredths (count r) total <? others_threshold in
      let others_count := sum_counts (List.filter below df) in
      let main_df := List.filter (fun r => negb (below r)) df in
      main_df ++ [("Others", others_count)]
  end.

(** A node that the loop counts: every node but one whose
    organization is [None] or empty. *)
Definition counted (n : node) : bool :=
  match n with
  | Org None => false
  | Org (Some org) => negb (String.eqb org "")
  | _ => true
  end.

End EthereumClassic.

(* ================================================================== *)
(** * scripts/common/plotting.py *)
(* ================================================================== *)

Module Plotting.

(** A row of the CSV file; [None] is a missing [Category]. The counts
    are the values of an [int64] column. *)
Definition csv_row : Type := option string * Z.

(** The value that a sum of [int64] numbers has in numpy: the sum
    wraps around at 64 bits. *)
Definition wrap64 (z : Z) : Z := (z + 2 ^ 63) mod 2 ^ 64 - 2 ^ 63.

(** The sum of the counts of the file, as a number. *)
Definition exact_total (data : list csv_row) : Z :=
  foldr (fun r acc => snd r + acc) 0 data.

(** [data["Count"].sum()]. *)
Definition total_count (data : list csv_row) : Z := wrap64 (exact_total data).

(** [(Count / total_count) * 100 >= 1.5] and [... < 1.5]. The
    percentage is compared exactly, as [200 * Count] against
    [3 * total_count]; a zero total makes the percentage infinite or
    undefined, as the division of numpy does. The floating point
    computation of numpy gives the same comparisons when the total is
    below [2 ^ 51]; above it, it can differ for a count within a few
    units of 1.5% of the total. *)
Definition percentage_ge_threshold (count total : Z) : bool :=
  if 0 <? total then 3 * total <=? 200 * count
  else if total <? 0 then 200 * count <=? 3 * total
  else 0 <? count.

Definition percentage_lt_threshold (count total : Z) : bool :=
  if 0 <? total then 200 * count <? 3 * total
  else if total <? 0 then 3 * total <? 200 * count
  else count <? 0.

(** One step of [groupby('Category').sum()]: the groups are kept in
    the order of their keys, and the sum of a group is an [int64]
    sum. *)
Fixpoint add_group (r : row) (groups : table) : table :=
  match groups with
  | [] => [r]
  | g :: rest =>
      match String.compare (category r) (category g) with
      | Eq => (category g, wrap64 (count g + count r)) :: rest
      | Lt => r :: groups
      | Gt => g :: add_group r rest
      end
  end.

(** [df.groupby('Category', as_index=False).sum()]. *)
Definition groupby_sum (t : table) : table :=
  fold_left (fun groups r => add_group r groups) t [].

(** [data[data['Category'].notna()]]. *)
Definition notna (data : list csv_row) : table :=
  omap (fun r => match fst r with Some c => Some (c, snd r) | None => None end) data.

Section chart.

Context `{SortValues}.

(** [filtered_data], the rows drawn as wedges. *)
Definition filtered_data (data : list csv_row) (convert_countries : bool) : table :=
  let data :=
    if convert_countries
    then List.map (fun r => (Utils.get_country_name <$> fst r, snd r)) data
    else data in
  let total_count := total_count data in
  let sorted_data := sort_values (notna data) in
  let large_data :=
    List.filter (fun r => percentage_ge_threshold (count r) total_count) sorted_data in
  let others :=
    wrap64 (sum_counts
              (List.filter (fun r => percentage_lt_threshold (count r) total_count)
                           sorted_data)) in
  if 0 <? others
  then groupby_sum (large_data ++ [("Others", others)])
  else large_data.


End chart.

(** The order of the categories as strings. *)
Definition category_lt (r1 r2 : row) : Prop :=
  String.compare (category r1) (category r2) = Lt.

End Plotting.

(* ================================================================== *)
(** * Properties *)
(* ================================================================== *)

(** ** Python primitives on examples *)

Example lower_mixed : lower "Hetzner Online GmbH" = "hetzner online gmbh".
Proof. reflexivity. Qed.

Example replace_all : replace " LLC" "" "A LLC B LLC" = "A B".
Proof. reflexivity. Qed.

Example replace_no_overlap : replace "aa" "b" "aaa" = "ba".
Proof. reflexivity. Qed.

Example strip_both : strip "  Foo Bar " = "Foo Bar".
Proof. reflexivity. Qed.

Example split_dots : split "." "1.2..3" = ["1"; "2"; ""; "3"].
Proof. reflexivity. Qed.

Example split_empty : split "." "" = [""].
Proof. reflexivity. Qed.

Example int_plain : int " 12 " = Return 12.
Proof. reflexivity. Qed.

Example int_signed : int "-0" = Return 0 /\ int "+7" = Return 7.
Proof. split; reflexivity. Qed.

Example int_underscore : int "1_0" = Return 10 /\ int "1__0" = Raise ValueError.
Proof. split; reflexivity. Qed.

Example int_bad : int "" = Raise ValueError /\ int "1a" = Raise ValueError.
Proof. split; reflexivity. Qed.

(** [int] skips less white space than [strip]: the separator of code
    31 is removed by [strip] and refused by [int]. *)
Example int_separator :
  strip (String (ascii_of_nat 31) "4") = "4"
  /\ int (String (ascii_of_nat 31) "4") = Raise ValueError
  /\ int (String (ascii_of_nat 9) "4 ") = Return 4.
Proof. repeat split; reflexivity. Qed.

Example int_digit_bound :
  int (string_of_list_ascii (List.repeat "0"%char 4300%nat)) = Return 0
  /\ int (string_of_list_ascii (List.repeat "0"%char 4301%nat)) = Raise ValueError.
Proof. vm_compute. split; reflexivity. Qed.

Example incr_example :
  count_labels ["DE"; "US"; "DE"; "FR"] = [("DE", 2); ("US", 1); ("FR", 1)].
Proof. reflexivity. Qed.

Example merge_sort_values_example :
  @sort_values merge_sort_values [("DE", 2); ("US", 5); ("FR", 1)]
  = [("US", 5); ("DE", 2); ("FR", 1)].
Proof. vm_compute. reflexivity. Qed.

(** ** Lemmas on count tables *)

Lemma sum_counts_cons (r : row) (t : table) :
  sum_counts (r :: t) = count r + sum_counts t.
Proof. reflexivity. Qed.

Lemma sum_counts_app (t1 t2 : table) :
  sum_counts (t1 ++ t2) = sum_counts t1 + sum_counts t2.
Proof.
  induction t1 as [|r t1 IH]; [reflexivity|].
  rewrite <- app_comm_cons, !sum_counts_cons, IH. lia.
Qed.

Lemma sum_counts_perm (t1 t2 : table) :
  t1 ≡ₚ t2 -> sum_counts t1 = sum_counts t2.
Proof.
  induction 1 as [|r t1 t2 _ IH|r1 r2 t|t1 t2 t3 _ IH1 _ IH2].
  - reflexivity.
  - rewrite !sum_counts_cons. lia.
  - rewrite !sum_counts_cons. lia.
  - congruence.
Qed.

Lemma sum_counts_sort_values `{SortValues} (t : table) :
  sum_counts (sort_values t) = sum_counts t.
Proof. apply sum_counts_perm, sort_values_perm. Qed.

Lemma sum_counts_incr (key : string) (counts : table) :
  sum_counts (incr key counts) = sum_counts counts + 1.
Proof.
  induction counts as [|[k n] rest IH]; [reflexivity|].
  cbn [incr]. destruct (String.eqb k key); rewrite !sum_counts_cons.
  - unfold count. cbn. lia.
  - rewrite IH. lia.
Qed.

Lemma sum_counts_count_labels_from (labels : list string) (counts : table) :
  sum_counts (fold_left (fun c l => incr l c) labels counts)
  = sum_counts counts + Z.of_nat (length labels).
Proof.
  revert counts. induction labels as [|l labels IH]; intros counts.
  - cbn [fold_left length]. lia.
  - cbn [fold_left]. rewrite IH, sum_counts_incr, length_cons. lia.
Qed.

Lemma sum_counts_count_labels (labels : list string) :
  sum_counts (count_labels labels) = Z.of_nat (length labels).
Proof. unfold count_labels. rewrite sum_counts_count_labels_from. reflexivity. Qed.

Lemma positive_counts_incr (key : string) (counts : table) :
  positive_counts counts -> positive_counts (incr key counts).
Proof.
  unfold positive_counts.
  induction counts as [|[k n] rest IH]; cbn; intros Hpos.
  - repeat constructor.
  - inversion Hpos as [|? ? Hn Hrest]; subst. cbn in Hn.
    destruct (String.eqb k key); constructor; cbn; auto; lia.
Qed.

Lemma sum_counts_filter_le (f : row -> bool) (t : table) :
  positive_counts t -> sum_counts (List.filter f t) <= sum_counts t.
Proof.
  unfold positive_counts.
  induction 1 as [|r t Hr _ IH]; [reflexivity|].
  cbn [List.filter]. destruct (f r); rewrite !sum_counts_cons; lia.
Qed.

(** Adjacent rows of a sorted table, by index. *)
Lemma Sorted_adjacent (t : table) (i : nat) (r1 r2 : row) :
  Sorted count_ge t -> t !! i = Some r1 -> t !! S i = Some r2 ->
  count r2 <= count r1.
Proof.
  intros Hs. revert i. induction Hs as [|a t Hs IH Hhd]; intros i H1 H2.
  - discriminate.
  - destruct i as [|i]; cbn in *.
    + injection H1 as <-. destruct t as [|b t]; [discriminate|].
      cbn in H2. injection H2 as <-. inversion Hhd; subst. assumption.
    + eapply IH; eassumption.
Qed.

Lemma Sorted_filter (f : row -> bool) (t : table) :
  Sorted count_ge t -> Sorted count_ge (List.filter f t).
Proof.
  intros Hs. apply Sorted_StronglySorted in Hs; [|apply _].
  apply StronglySorted_Sorted.
  induction Hs as [|a t Hs IH Hall]; cbn; [constructor|].
  destruct (f a); [|assumption].
  constructor; [assumption|].
  rewrite List.Forall_forall in *. intros x Hx.
  apply List.filter_In in Hx. apply Hall, Hx.
Qed.

Example get_country_name_known : Utils.get_country_name "NL" = "Netherlands".
Proof. vm_compute. reflexivity. Qed.

Example get_country_name_unknown : Utils.get_country_name "XK" = "XK".
Proof. vm_compute. reflexivity. Qed.


(** ** Country names (utils.py) *)

Lemma COUNTRY_MAPPING_keys_NoDup : NoDup (Utils.COUNTRY_MAPPING_items.*1).
Proof.
  apply (bool_decide_unpack (NoDup (Utils.COUNTRY_MAPPING_items.*1))).
  vm_compute. reflexivity.
Qed.

Lemma COUNTRY_MAPPING_lookup (code name : string) :
  Utils.COUNTRY_MAPPING !! code = Some name <->
  (code, name) ∈ Utils.COUNTRY_MAPPING_items.
Proof.
  unfold Utils.COUNTRY_MAPPING. symmetry.
  apply elem_of_list_to_map, COUNTRY_MAPPING_keys_NoDup.
Qed.

(** C9. [get_country_name] is a function from strings to strings: on a
    code of the static table it returns the display name the table
    gives to that code, and on every other string it returns its
    argument. *)
Theorem get_country_name_table_or_identity (code : string) :
  (forall name, (code, name) ∈ Utils.COUNTRY_MAPPING_items ->
                Utils.get_country_name code = name)
  /\ (code ∉ Utils.COUNTRY_MAPPING_items.*1 ->
      Utils.get_country_name code = code).
Proof.
  unfold Utils.get_country_name. split.
  - intros name Hin. apply COUNTRY_MAPPING_lookup in Hin. rewrite Hin. reflexivity.
  - intros Hnot. unfold Utils.COUNTRY_MAPPING.
    apply (not_elem_of_list_to_map (M := gmap string)) in Hnot.
    rewrite Hnot. reflexivity.
Qed.

Lemma get_country_name_table_or_identity_witness :
  Utils.get_country_name "DE" = "Germany" /\ Utils.get_country_name "ZZ" = "ZZ".
Proof.
  split.
  - apply (get_country_name_table_or_identity "DE").
    apply (bool_decide_unpack (("DE", "Germany") ∈ Utils.COUNTRY_MAPPING_items)).
    vm_compute. reflexivity.
  - apply (get_country_name_table_or_identity "ZZ").
    apply (bool_decide_unpack ("ZZ" ∉ Utils.COUNTRY_MAPPING_items.*1)).
    vm_compute. reflexivity.
Defined.

(** ** The generic fetcher (utils.py) *)

(** C7. [make_request] returns for every result of the request: the
    parsed document when the request, the status check and the parsing
    all succeed, and [None] with one printed line when any of them
    raises, whether a transport error, an error status or malformed
    JSON. It never ends in an exception. *)
Theorem make_request_never_raises (J : Type)
        (requests_request : string -> string -> outcome (Utils.response J))
        (url method : string) :
  (exists response data,
      requests_request method url = Return response
      /\ Utils.raise_for_status response = Return tt
      /\ Utils.json response = Return data
      /\ Utils.make_request J requests_request url method = (Return (Some data), []))
  \/ (exists e message,
      (requests_request method url = Raise e
       \/ exists response,
           requests_request method url = Return response
           /\ (Utils.raise_for_status response = Raise e
               \/ (Utils.raise_for_status response = Return tt
                   /\ Utils.json response = Raise e)))
      /\ Utils.make_request J requests_request url method = (Return None, [message])).
Proof.
  unfold Utils.make_request, Utils.make_request_try, bind.
  destruct (requests_request method url) as [response|e] eqn:Hreq.
  - destruct (Utils.raise_for_status response) as [[]|e] eqn:Hstatus.
    + destruct (Utils.json response) as [data|e] eqn:Hjson.
      * left. exists response, data. auto.
      * right. exists e. destruct (isinstance_RequestException e);
          eexists; (split; [right; exists response; auto | reflexivity]).
    + right. exists e. destruct (isinstance_RequestException e);
        eexists; (split; [right; exists response; auto | reflexivity]).
  - right. exists e. destruct (isinstance_RequestException e);
      eexists; (split; [left; reflexivity | reflexivity]).
Qed.

Example make_request_malformed_json :
  Utils.make_request Z
    (fun _ _ => Return {| Utils.raise_for_status := Return tt;
                          Utils.json := Raise JSONDecodeError |})
    "https://bitnodes.io/api/v1/snapshots/latest/" "GET"
  = (Return None, ["Unexpected error"]).
Proof. reflexivity. Qed.

(** ** The fetcher with retries (total_node_count_fetch_data.py) *)

Lemma transport_failure_attempt_try (J : Type)
      (requests_request : nat -> outcome (Utils.response J)) (n : nat) :
  NodeCounts.transport_failure requests_request n ->
  exists e, isinstance_RequestException e = true
            /\ NodeCounts.attempt_try J requests_request n = Raise e.
Proof.
  intros (e & He & [Hreq | (response & Hreq & Hstatus)]); exists e; split; auto;
    unfold NodeCounts.attempt_try, bind; rewrite Hreq; [reflexivity|].
  rewrite Hstatus. reflexivity.
Qed.

(** C8. [_make_request] makes at most three requests, and the seconds
    it sleeps are the beginning of 1, 2. When the three requests fail
    in transport it sleeps 1 second after the first failure and 2
    seconds after the second, logs the third failure and returns
    [None]; it does not raise. *)
Theorem fetcher_three_attempts_linear_backoff (J : Type)
        (requests_request : nat -> outcome (Utils.response J)) :
  (NodeCounts.requests_made (snd (NodeCounts._make_request J requests_request)) <= 3)%nat
  /\ NodeCounts.seconds_slept (snd (NodeCounts._make_request J requests_request))
       `prefix_of` [1; 2]%nat
  /\ (NodeCounts.transport_failure requests_request 0 ->
      NodeCounts.transport_failure requests_request 1 ->
      NodeCounts.transport_failure requests_request 2 ->
      NodeCounts._make_request J requests_request
      = (Return None,
         [NodeCounts.Requested 0; NodeCounts.Slept 1;
          NodeCounts.Requested 1; NodeCounts.Slept 2;
          NodeCounts.Requested 2; NodeCounts.Logged "Request error"])).
Proof.
  unfold NodeCounts._make_request. cbn [seq NodeCounts.attempts].
  split; [|split].
  - destruct (NodeCounts.attempt_try J requests_request 0) as [d0|e0]; cbn; [lia|].
    destruct (isinstance_RequestException e0); cbn;
      [|destruct (isinstance_JSONDecodeError e0); cbn; lia].
    destruct (NodeCounts.attempt_try J requests_request 1) as [d1|e1]; cbn; [lia|].
    destruct (isinstance_RequestException e1); cbn;
      [|destruct (isinstance_JSONDecodeError e1); cbn; lia].
    destruct (NodeCounts.attempt_try J requests_request 2) as [d2|e2]; cbn; [lia|].
    destruct (isinstance_RequestException e2); cbn;
      [|destruct (isinstance_JSONDecodeError e2); cbn; lia].
    lia.
  - destruct (NodeCounts.attempt_try J requests_request 0) as [d0|e0]; cbn;
      [by exists [1; 2]%nat|].
    destruct (isinstance_RequestException e0); cbn;
      [|destruct (isinstance_JSONDecodeError e0); cbn; by exists [1; 2]%nat].
    destruct (NodeCounts.attempt_try J requests_request 1) as [d1|e1]; cbn;
      [by exists [2]%nat|].
    destruct (isinstance_RequestException e1); cbn;
      [|destruct (isinstance_JSONDecodeError e1); cbn; by exists [2]%nat].
    destruct (NodeCounts.attempt_try J requests_request 2) as [d2|e2]; cbn;
      [by exists []|].
    destruct (isinstance_RequestException e2); cbn;
      [|destruct (isinstance_JSONDecodeError e2); cbn]; by exists [].
  - intros H0 H1 H2.
    apply transport_failure_attempt_try in H0 as (e0 & He0 & ->).
    apply transport_failure_attempt_try in H1 as (e1 & He1 & ->).
    apply transport_failure_attempt_try in H2 as (e2 & He2 & ->).
    rewrite He0, He1, He2. reflexivity.
Qed.

Lemma fetcher_three_attempts_linear_backoff_witness :
  NodeCounts._make_request Z (fun _ => Raise Timeout)
  = (Return None,
     [NodeCounts.Requested 0; NodeCounts.Slept 1;
      NodeCounts.Requested 1; NodeCounts.Slept 2;
      NodeCounts.Requested 2; NodeCounts.Logged "Request error"]).
Proof.
  apply (fetcher_three_attempts_linear_backoff Z (fun _ => Raise Timeout));
    exists Timeout; (split; [reflexivity | left; reflexivity]).
Defined.

Example _make_request_retry_then_success :
  NodeCounts._make_request Z
    (fun n => if Nat.eqb n 0 then Raise ConnectionError
              else Return {| Utils.raise_for_status := Return tt;
                             Utils.json := Return 7 |})
  = (Return (Some 7),
     [NodeCounts.Requested 0; NodeCounts.Slept 1; NodeCounts.Requested 1]).
Proof. reflexivity. Qed.

(** ** Addresses of a node (ethereum.py) *)

Example _is_valid_ip_examples :
  Ethereum._is_valid_ip "192.168.0.1" = Return true
  /\ Ethereum._is_valid_ip "256.1.1.1" = Return false
  /\ Ethereum._is_valid_ip "1.2.3" = Return false
  /\ Ethereum._is_valid_ip "a.b.c.d" = Return false
  /\ Ethereum._is_valid_ip "1.2.3.+4" = Return true.
Proof. repeat split; reflexivity. Qed.

Example _is_valid_ip_separator :
  Ethereum._is_valid_ip ("1.2.3." +:+ String (ascii_of_nat 31) "4") = Return false
  /\ Ethereum._is_valid_ip "1.2.3. 4" = Return true.
Proof. vm_compute. split; reflexivity. Qed.

Example _extract_ips_example :
  Ethereum._extract_ips
    (VList [VStr "/ip4/10.0.0.1/tcp/30303"; VOther;
            VStr "/ip4/10.0.0.1/udp/30303"; VStr "/ip4/999.0.0.1/tcp/1";
            VStr "/dns4/example.org/tcp/1"; VStr "/ip4"])
  = Return ["10.0.0.1"].
Proof. vm_compute. reflexivity. Qed.

Lemma int_raises_ValueError (s : string) (e : exn) :
  int s = Raise e -> e = ValueError.
Proof.
  unfold int. destruct (parse_int s); intros Heq; congruence.
Qed.

Lemma all_in_range_raises_ValueError (parts : list string) (e : exn) :
  Ethereum.all_in_range parts = Raise e -> e = ValueError.
Proof.
  induction parts as [|part rest IH]; cbn; [discriminate|].
  destruct (int part) as [n|e'] eqn:Hint; cbn.
  - destruct ((0 <=? n) && (n <=? 255)); [exact IH | discriminate].
  - intros [= <-]. eapply int_raises_ValueError, Hint.
Qed.

Lemma _is_valid_ip_returns (ip : string) :
  exists valid, Ethereum._is_valid_ip ip = Return valid.
Proof.
  unfold Ethereum._is_valid_ip, try_except.
  destruct (negb (length (split "." ip) =? 4)%nat); [by exists false|].
  destruct (Ethereum.all_in_range (split "." ip)) as [b|e] eqn:Hall; [by exists b|].
  apply all_in_range_raises_ValueError in Hall as ->. by exists false.
Qed.

Lemma all_in_range_true (parts : list string) :
  Ethereum.all_in_range parts = Return true ->
  Forall Ethereum.byte_component parts.
Proof.
  induction parts as [|part rest IH]; cbn; [constructor|].
  destruct (int part) as [n|e] eqn:Hint; cbn; [|discriminate].
  destruct ((0 <=? n) && (n <=? 255)) eqn:Hrange; [|discriminate].
  intros Hrest. constructor; [|auto].
  exists n. split; [assumption|].
  apply andb_prop in Hrange as [H0 H255]. lia.
Qed.

Lemma _is_valid_ip_four_byte_components (ip : string) :
  Ethereum._is_valid_ip ip = Return true -> Ethereum.four_byte_components ip.
Proof.
  unfold Ethereum._is_valid_ip, try_except, Ethereum.four_byte_components.
  destruct (length (split "." ip) =? 4)%nat eqn:Hlen; cbn; [|discriminate].
  apply Nat.eqb_eq in Hlen.
  destruct (Ethereum.all_in_range (split "." ip)) as [b|e] eqn:Hall.
  - intros [= ->]. apply all_in_range_true in Hall.
    destruct (split "." ip) as [|a [|b [|c [|d [|? ?]]]]]; try discriminate.
    exists a, b, c, d.
    inversion Hall as [|? ? Ha H1]; subst. inversion H1 as [|? ? Hb H2]; subst.
    inversion H2 as [|? ? Hc H3]; subst. inversion H3 as [|? ? Hd _]; subst.
    auto.
  - destruct (isinstance_ValueError e); discriminate.
Qed.

Lemma scan_parts_valid (parts ips : list string) :
  Ethereum.all_valid ips ->
  exists ips', Ethereum.scan_parts parts ips = Return ips' /\ Ethereum.all_valid ips'.
Proof.
  revert ips. induction parts as [|part rest IH]; intros ips Hips; cbn.
  - by exists ips.
  - destruct rest as [|ip rest']; [by apply IH|].
    destruct (String.eqb part "ip4"); [|by apply IH].
    destruct (_is_valid_ip_returns ip) as [valid Hvalid]. rewrite Hvalid. cbn [bind].
    apply IH. destruct valid; [|assumption].
    apply Forall_app. split; [assumption|]. by constructor.
Qed.

Lemma scan_addrs_valid (maddrs : list value) (ips : list string) :
  Ethereum.all_valid ips ->
  exists ips', Ethereum.scan_addrs maddrs ips = Return ips' /\ Ethereum.all_valid ips'.
Proof.
  revert ips. induction maddrs as [|addr rest IH]; intros ips Hips; cbn.
  - by exists ips.
  - destruct addr as [|s|l|]; try by apply IH.
    destruct (scan_parts_valid (split "/" s) ips Hips) as (ips' & -> & Hips').
    cbn [bind]. by apply IH.
Qed.

(** C10. [_extract_ips] returns for every argument, and never raises:
    the list it returns has no duplicates, each of its elements is
    accepted by [_is_valid_ip] and so has exactly four components
    between dots, each read by [int] as a number from 0 to 255; for an
    argument that is not a list it returns the empty list. *)
Theorem extract_ips_valid_without_duplicates (maddrs : value) :
  exists ips,
    Ethereum._extract_ips maddrs = Return ips
    /\ NoDup ips
    /\ (forall ip, ip ∈ ips ->
          Ethereum._is_valid_ip ip = Return true
          /\ Ethereum.four_byte_components ip)
    /\ ((forall addrs, maddrs <> VList addrs) -> ips = []).
Proof.
  assert (Hempty : forall v : value,
             Ethereum._extract_ips v = Return [] ->
             (forall addrs, v <> VList addrs) ->
             exists ips, Ethereum._extract_ips v = Return ips /\ NoDup ips
               /\ (forall ip, ip ∈ ips ->
                     Ethereum._is_valid_ip ip = Return true
                     /\ Ethereum.four_byte_components ip)
               /\ ((forall addrs, v <> VList addrs) -> ips = [])).
  { intros v Hv _. exists []. split; [assumption|]. split; [constructor|].
    split; [|reflexivity]. intros ip Hip. by apply elem_of_nil in Hip. }
  destruct maddrs as [|s|addrs|]; try (apply Hempty; [reflexivity|discriminate]).
  clear Hempty. cbn.
  destruct (scan_addrs_valid addrs [] ltac:(constructor)) as (ips & -> & Hvalid).
  cbn [bind]. eexists. split; [reflexivity|]. split; [|split].
  - apply NoDup_elements.
  - intros ip Hip. apply elem_of_elements, elem_of_list_to_set in Hip.
    unfold Ethereum.all_valid in Hvalid. rewrite Forall_forall in Hvalid.
    specialize (Hvalid ip Hip). split; [assumption|].
    by apply _is_valid_ip_four_byte_components.
  - intros Hnot. by destruct (Hnot addrs).
Qed.

Lemma extract_ips_valid_without_duplicates_witness :
  exists ips, Ethereum._extract_ips (VStr "/ip4/10.0.0.1") = Return ips /\ ips = [].
Proof.
  destruct (extract_ips_valid_without_duplicates (VStr "/ip4/10.0.0.1"))
    as (ips & Hret & _ & _ & Hnot).
  exists ips. split; [assumption|]. apply Hnot. discriminate.
Defined.

(** ** Counts against records (bitcoin.py, ethereum.py) *)

Lemma sum_counts_count_country (nodes : list Bitcoin.node_info) (counts : table) :
  sum_counts (fold_left Bitcoin.count_country nodes counts)
  <= sum_counts counts + Z.of_nat (length nodes).
Proof.
  revert counts. induction nodes as [|n nodes IH]; intros counts.
  - cbn [fold_left length]. lia.
  - cbn [fold_left]. rewrite length_cons. etransitivity; [apply IH|].
    unfold Bitcoin.count_country.
    destruct (Bitcoin.country_code n) as [country|]; [|lia].
    destruct (negb (String.eqb country "") && negb (String.eqb country "null")
              && negb (String.eqb country "TOR")); [|lia].
    rewrite sum_counts_incr. lia.
Qed.

Section ethereum_hosting.

Context `{SortValues}.
Variable asn : string -> outcome (option string).

Lemma sum_counts_count_ip (ips : list string) (counts : table) :
  sum_counts (fold_left (Ethereum.count_ip asn) ips counts)
  <= sum_counts counts + Z.of_nat (length ips).
Proof.
  revert counts. induction ips as [|ip ips IH]; intros counts.
  - cbn [fold_left length]. lia.
  - cbn [fold_left]. rewrite length_cons. etransitivity; [apply IH|].
    unfold Ethereum.count_ip.
    destruct (asn ip) as [[org|]|e]; try lia.
    destruct (String.eqb org ""); [lia|]. rewrite sum_counts_incr. lia.
Qed.

Lemma sum_counts_read_lines (lines : list Ethereum.line) (counts : table) :
  sum_counts (fst (Ethereum.read_lines asn lines counts))
  <= sum_counts counts
     + Z.of_nat (length (concat (List.map Ethereum.ips_of_line lines))).
Proof.
  revert counts. induction lines as [|l lines IH]; intros counts.
  - cbn. lia.
  - rewrite List.map_cons, concat_cons, length_app.
    destruct l as [| | |maddrs]; cbn [Ethereum.read_lines Ethereum.ips_of_line fst length];
      try (etransitivity; [apply IH|]; lia); try lia.
    destruct maddrs as [|s|addrs|]; cbn [Ethereum.ips_of_line];
      try (etransitivity; [apply IH|]; cbn [length]; lia).
    all: destruct (Ethereum._extract_ips _) as [ips|e] eqn:Hips.
    all: try (etransitivity; [apply IH|]; pose proof (sum_counts_count_ip ips counts); lia).
    all: destruct (isinstance_JSONDecodeError e); cbn [fst length];
      try (etransitivity; [apply IH|]; cbn [length]; lia); lia.
Qed.

End ethereum_hosting.

Lemma length_concat_at_most_one {A} (ls : list (list A)) :
  Forall (fun l => (length l <= 1)%nat) ls -> (length (concat ls) <= length ls)%nat.
Proof.
  induction 1 as [|l ls Hl _ IH]; [reflexivity|].
  rewrite concat_cons, length_app, length_cons. lia.
Qed.

(** C1, amended. The geographic table of [BitcoinAnalyzer.process_data]
    counts each node record at most once: its counts sum to at most the
    number of records. [EthereumAnalyzer.process_hosting_distribution]
    counts a record once for each of its distinct valid addresses: its
    counts sum to at most the number of addresses extracted from the
    lines, and to at most the number of lines when no line has more
    than one address. *)
Theorem counts_bounded_by_records_or_addresses `{SortValues} :
  (forall nodes : list Bitcoin.node_info,
      sum_counts (Bitcoin.process_data_geographic nodes) <= Z.of_nat (length nodes))
  /\ (forall (asn : string -> outcome (option string)) (lines : list Ethereum.line),
      sum_counts (Ethereum.process_hosting_distribution asn (Some lines))
      <= Z.of_nat (length (concat (List.map Ethereum.ips_of_line lines))))
  /\ (forall (asn : string -> outcome (option string)) (lines : list Ethereum.line),
      Forall (fun l => (length (Ethereum.ips_of_line l) <= 1)%nat) lines ->
      sum_counts (Ethereum.process_hosting_distribution asn (Some lines))
      <= Z.of_nat (length lines)).
Proof.
  assert (Haddr : forall asn lines,
             sum_counts (Ethereum.process_hosting_distribution asn (Some lines))
             <= Z.of_nat (length (concat (List.map Ethereum.ips_of_line lines)))).
  { intros asn lines. unfold Ethereum.process_hosting_distribution.
    rewrite sum_counts_sort_values.
    pose proof (sum_counts_read_lines asn lines []) as Hle.
    change (sum_counts []) with 0 in Hle. lia. }
  split; [|split].
  - intros nodes. unfold Bitcoin.process_data_geographic.
    rewrite sum_counts_sort_values.
    pose proof (sum_counts_count_country nodes []) as Hle.
    change (sum_counts []) with 0 in Hle. lia.
  - exact Haddr.
  - intros asn lines Hone. etransitivity; [apply Haddr|].
    apply inj_le. etransitivity; [apply length_concat_at_most_one|].
    + apply List.Forall_map. exact Hone.
    + rewrite List.length_map. reflexivity.
Qed.

Lemma counts_bounded_by_records_or_addresses_witness :
  sum_counts
    (@Ethereum.process_hosting_distribution merge_sort_values
       (fun _ => Return (Some "Hetzner Online GmbH"))
       (Some [Ethereum.Node (VList [VStr "/ip4/95.216.1.1/tcp/30303"]);
              Ethereum.Malformed]))
  <= 2.
Proof.
  apply (proj2 (proj2 (@counts_bounded_by_records_or_addresses merge_sort_values))
           (fun _ => Return (Some "Hetzner Online GmbH"))
           [Ethereum.Node (VList [VStr "/ip4/95.216.1.1/tcp/30303"]);
            Ethereum.Malformed]).
  repeat constructor.
Defined.

(** C1 as stated fails for
    [EthereumAnalyzer.process_hosting_distribution]: one line of the
    raw file with two addresses, both known to the ASN database, gives
    a table whose counts sum to 2. *)
Lemma hosting_counts_exceed_records :
  let lines :=
    [Ethereum.Node (VList [VStr "/ip4/95.216.1.1/tcp/30303";
                           VStr "/ip4/95.216.1.2/tcp/30303"])] in
  let table :=
    @Ethereum.process_hosting_distribution merge_sort_values
      (fun _ => Return (Some "Hetzner Online GmbH")) (Some lines) in
  table = [("Hetzner Online GmbH", 2)]
  /\ ~ (sum_counts table <= Z.of_nat (length lines)).
Proof. vm_compute. split; [reflexivity|]. intros Hle. apply Hle. reflexivity. Qed.

(** ** Order of the rows (bitcoin.py, ethereum.py, ethereum_classic.py) *)

Lemma Sorted_adjacent_descending (t : table) :
  Sorted count_ge t -> adjacent_descending t.
Proof. intros Hs i r1 r2. by apply Sorted_adjacent. Qed.

Example process_client_distribution_example :
  @Bitcoin.process_client_distribution merge_sort_values
    (Some [ {| Bitcoin.user_agent := Some "/Satoshi:27.0.0/";
               Bitcoin.hostname := None; Bitcoin.country_code := Some "DE";
               Bitcoin.asn := Some "AS24940" |};
            {| Bitcoin.user_agent := Some "/btcwire:0.5.0/btcd:0.24.0/";
               Bitcoin.hostname := None; Bitcoin.country_code := Some "US";
               Bitcoin.asn := Some "AS16509" |};
            {| Bitcoin.user_agent := Some "/Satoshi:26.0.0/Knots:20231115/";
               Bitcoin.hostname := None; Bitcoin.country_code := None;
               Bitcoin.asn := Some "TOR" |};
            {| Bitcoin.user_agent := Some "/Satoshi:25.0.0/";
               Bitcoin.hostname := None; Bitcoin.country_code := Some "DE";
               Bitcoin.asn := Some "AS24940" |};
            {| Bitcoin.user_agent := Some "/Satoshi:27.0.0(ABC)/";
               Bitcoin.hostname := None; Bitcoin.country_code := Some "FR";
               Bitcoin.asn := Some "AS16276" |} ])
  = [("Bitcoin Core", 2)].
Proof. vm_compute. reflexivity. Qed.

(** C2, amended. A table that an aggregation step returns from
    [sort_values], or from [sort_values] followed by a filter on the
    rows, has its counts in descending order: this holds for
    [BitcoinAnalyzer.process_client_distribution] and for
    [EthereumAnalyzer.process_geographic_distribution]. The table of
    [EthereumClassicAnalyzer.process_hosting_distribution] is empty or
    ends in an [Others] row appended after the sorting; the rows before
    that row are in descending order. *)
Theorem tables_descending_up_to_appended_row `{SortValues} :
  (forall nodes : option (list Bitcoin.node_info),
      adjacent_descending (Bitcoin.process_client_distribution nodes))
  /\ (forall data : option (list Ethereum.node),
      adjacent_descending (Ethereum.process_geographic_distribution data))
  /\ (forall data : list EthereumClassic.node,
      EthereumClassic.process_hosting_distribution data = []
      \/ exists main_df others_count,
          EthereumClassic.process_hosting_distribution data
          = main_df ++ [("Others", others_count)]
          /\ adjacent_descending main_df).
Proof.
  split; [|split].
  - intros [nodes|]; cbn; [|intros i r1 r2; discriminate].
    apply Sorted_adjacent_descending, Sorted_filter, sort_values_sorted.
  - intros [rows|]; cbn; [|intros i r1 r2; discriminate].
    apply Sorted_adjacent_descending, sort_values_sorted.
  - intros data. unfold EthereumClassic.process_hosting_distribution.
    destruct (fold_left EthereumClassic.count_node data []) as [|r counts];
      [by left|].
    right. eexists _, _. split; [reflexivity|].
    apply Sorted_adjacent_descending, Sorted_filter, sort_values_sorted.
Qed.

(** C2 as stated fails for
    [EthereumClassicAnalyzer.process_hosting_distribution]: with 100
    nodes of which 90, 4, 3 and 3 belong to four providers, the two
    providers at 3% are summed into an [Others] row of count 6 placed
    after a row of count 4. *)
Lemma others_row_breaks_descending_order :
  let data :=
    replicate 90 (EthereumClassic.Org (Some "AS24940 Hetzner Online GmbH"))
    ++ replicate 4 (EthereumClassic.Org (Some "AS16509 Amazon.com, Inc."))
    ++ replicate 3 (EthereumClassic.Org (Some "AS14061 DigitalOcean, LLC"))
    ++ replicate 3 (EthereumClassic.Org (Some "AS16276 OVH SAS")) in
  let table := @EthereumClassic.process_hosting_distribution merge_sort_values data in
  table = [("Hetzner Online GmbH", 90); ("Amazon.com, Inc.", 4); ("Others", 6)]
  /\ ~ adjacent_descending table.
Proof.
  assert (Htable :
    @EthereumClassic.process_hosting_distribution merge_sort_values
      (replicate 90 (EthereumClassic.Org (Some "AS24940 Hetzner Online GmbH"))
       ++ replicate 4 (EthereumClassic.Org (Some "AS16509 Amazon.com, Inc."))
       ++ replicate 3 (EthereumClassic.Org (Some "AS14061 DigitalOcean, LLC"))
       ++ replicate 3 (EthereumClassic.Org (Some "AS16276 OVH SAS")))
    = [("Hetzner Online GmbH", 90); ("Amazon.com, Inc.", 4); ("Others", 6)]).
  { vm_compute. reflexivity. }
  cbv zeta. rewrite Htable. split; [reflexivity|].
  intros Hdesc.
  specialize (Hdesc 1%nat ("Amazon.com, Inc.", 4) ("Others", 6) eq_refl eq_refl).
  unfold count in Hdesc. cbn in Hdesc. lia.
Qed.

(** ** Hosting classification (solana.py) *)

Example hosting_category_examples :
  Solana.hosting_category "Hetzner Online GmbH" = Some "Hetzner"
  /\ Solana.hosting_category "AMAZON-02" = Some "Amazon AWS"
  /\ Solana.hosting_category "Google LLC" = Some "Google Cloud"
  /\ Solana.hosting_category "Latitude.sh LTDA" = Some "Latitude.sh LTDA"
  /\ Solana.hosting_category "TeraSwitch Networks Inc." = Some "TeraSwitch Networks"
  /\ Solana.hosting_category "Stanford University" = None
  /\ Solana.hosting_category "China Telecom Ltd." = None.
Proof. vm_compute. repeat split; reflexivity. Qed.

Lemma append_nil (s : string) : "" +:+ s = s.
Proof. reflexivity. Qed.

Lemma append_cons (c : ascii) (s1 s2 : string) :
  String c s1 +:+ s2 = String c (s1 +:+ s2).
Proof. reflexivity. Qed.

Lemma startswith_spec (p s : string) :
  startswith p s = true <-> exists post, s = p +:+ post.
Proof.
  revert s. induction p as [|a p IH]; intros s; cbn.
  - split; [intros _; by exists s | reflexivity].
  - destruct s as [|b s]; [split; [discriminate | intros (post & [=])]|].
    rewrite andb_true_iff, Ascii.eqb_eq, IH. split.
    + intros (-> & post & ->). by exists post.
    + intros (post & [= -> ->]). split; [reflexivity | by exists post].
Qed.

Lemma startswith_contains (v s : string) :
  startswith v s = true -> contains v s = true.
Proof. intros Hstart. destruct s; cbn [contains]; rewrite Hstart; reflexivity. Qed.

Lemma contains_occurs (v s : string) :
  contains v s = true <-> Solana.occurs v s.
Proof.
  unfold Solana.occurs. split.
  - induction s as [|c s IH]; cbn [contains]; rewrite orb_true_iff.
    + intros [Hstart | [=]]. apply startswith_spec in Hstart as (post & ->).
      by exists "", post.
    + intros [Hstart | Hrest].
      * apply startswith_spec in Hstart as (post & ->). by exists "", post.
      * destruct (IH Hrest) as (pre & post & ->). by exists (String c pre), post.
  - intros (pre & post & ->). induction pre as [|c pre IH].
    + rewrite append_nil. apply startswith_contains, startswith_spec.
      by exists post.
    + rewrite !append_cons. cbn [contains]. rewrite IH. apply orb_true_r.
Qed.

Lemma any_variation_matches (variations : list string) (org : string) :
  Solana.any_variation variations org = true <->
  Solana.matches_provider variations org.
Proof.
  unfold Solana.any_variation, Solana.matches_provider.
  rewrite existsb_exists. split.
  - intros (v & Hin & Hc). exists v. split; [by apply list_elem_of_In|].
    by apply contains_occurs.
  - intros (v & Hin & Hc). exists v. split; [by apply list_elem_of_In|].
    by apply contains_occurs.
Qed.

Lemma excluded_has_keyword (org : string) :
  Solana.excluded org = true <-> Solana.has_excluded_keyword org.
Proof.
  unfold Solana.excluded, Solana.has_excluded_keyword.
  rewrite existsb_exists. split.
  - intros (x & Hin & Hc). exists x. split; [by apply list_elem_of_In|].
    by apply contains_occurs.
  - intros (x & Hin & Hc). exists x. split; [by apply list_elem_of_In|].
    by apply contains_occurs.
Qed.

Lemma match_provider_first (providers : list (string * list string))
      (org : string) (i : nat) (provider : string) (variations : list string) :
  providers !! i = Some (provider, variations) ->
  Solana.matches_provider variations org ->
  (forall j p vs, (j < i)%nat -> providers !! j = Some (p, vs) ->
                  ~ Solana.matches_provider vs org) ->
  Solana.match_provider providers org = Some provider.
Proof.
  revert i. induction providers as [|[p vs] rest IH]; intros i Hi Hmatch Hbefore.
  - discriminate.
  - cbn [Solana.match_provider]. destruct i as [|i].
    + injection Hi as -> ->.
      apply any_variation_matches in Hmatch. rewrite Hmatch. reflexivity.
    + destruct (Solana.any_variation vs org) eqn:Hvs.
      * exfalso. apply (Hbefore 0%nat p vs ltac:(lia) eq_refl).
        by apply any_variation_matches.
      * apply (IH i); [exact Hi | exact Hmatch |].
        intros j p' vs' Hj Hlook. apply (Hbefore (S j) p' vs' ltac:(lia) Hlook).
Qed.

Lemma match_provider_none (providers : list (string * list string)) (org : string) :
  (forall p vs, (p, vs) ∈ providers -> ~ Solana.matches_provider vs org) ->
  Solana.match_provider providers org = None.
Proof.
  induction providers as [|[p vs] rest IH]; intros Hnone; [reflexivity|].
  cbn [Solana.match_provider].
  destruct (Solana.any_variation vs org) eqn:Hvs.
  - exfalso. apply (Hnone p vs (list_elem_of_here _ _)).
    by apply any_variation_matches.
  - apply IH. intros p' vs' Hin. apply (Hnone p' vs').
    by apply list_elem_of_further.
Qed.

(** C4. After the suffixes are stripped from the organization name,
    the first provider of [known_providers], in the order of the
    table, one of whose variants occurs in the name without regard to
    case is the category; a name that matches no provider is dropped
    when an exclusion keyword occurs in it, and is otherwise its own
    category. *)
Theorem hosting_category_first_provider_or_own_name (org : string) :
  (forall (i : nat) (provider : string) (variations : list string),
      Solana.known_providers !! i = Some (provider, variations) ->
      Solana.matches_provider variations (Solana.strip_suffixes org) ->
      (forall j p vs, (j < i)%nat -> Solana.known_providers !! j = Some (p, vs) ->
                      ~ Solana.matches_provider vs (Solana.strip_suffixes org)) ->
      Solana.hosting_category org = Some provider)
  /\ ((forall p vs, (p, vs) ∈ Solana.known_providers ->
                    ~ Solana.matches_provider vs (Solana.strip_suffixes org)) ->
      (Solana.has_excluded_keyword (Solana.strip_suffixes org) ->
       Solana.hosting_category org = None)
      /\ (~ Solana.has_excluded_keyword (Solana.strip_suffixes org) ->
          Solana.hosting_category org = Some (Solana.strip_suffixes org))).
Proof.
  unfold Solana.hosting_category. split.
  - intros i provider variations Hi Hmatch Hbefore.
    by rewrite (match_provider_first _ _ i provider variations Hi Hmatch Hbefore).
  - intros Hnone. rewrite (match_provider_none _ _ Hnone). split.
    + intros Hex. apply excluded_has_keyword in Hex. rewrite Hex. reflexivity.
    + intros Hnex.
      destruct (Solana.excluded (Solana.strip_suffixes org)) eqn:Hex; [|reflexivity].
      exfalso. by apply Hnex, excluded_has_keyword.
Qed.

Lemma hosting_category_first_provider_or_own_name_witness :
  Solana.hosting_category "Hetzner Online GmbH" = Some "Hetzner".
Proof.
  apply (proj1 (hosting_category_first_provider_or_own_name "Hetzner Online GmbH")
           1%nat "Hetzner"
           ["Hetzner"; "Hetzner Online"; "Hetzner Online GmbH"; "HETZNER"]).
  - reflexivity.
  - exists "Hetzner". split; [apply list_elem_of_here|].
    exists "", " online gmbh". reflexivity.
  - intros j p vs Hj Hlook. destruct j as [|j]; [|lia].
    injection Hlook as <- <-. intros Hmatch.
    apply any_variation_matches in Hmatch. vm_compute in Hmatch. discriminate.
Defined.

(** ** Normalizing a normalized name (solana.py) *)

Lemma known_provider_names_fixed :
  Forall (fun provider => Solana.hosting_category provider = Some provider)
         (Solana.known_providers.*1).
Proof.
  apply (bool_decide_unpack
           (Forall (fun provider => Solana.hosting_category provider = Some provider)
                   (Solana.known_providers.*1))).
  vm_compute. reflexivity.
Qed.

Lemma match_provider_name (providers : list (string * list string))
      (org provider : string) :
  Solana.match_provider providers org = Some provider ->
  provider ∈ providers.*1.
Proof.
  induction providers as [|[p vs] rest IH]; cbn [Solana.match_provider]; [discriminate|].
  destruct (Solana.any_variation vs org).
  - intros [= ->]. apply list_elem_of_here.
  - intros Hrest. apply list_elem_of_further, IH, Hrest.
Qed.

(** C6, amended. Each canonical provider name of [known_providers] is
    normalized to itself. An output of the normalization is normalized
    to itself whenever stripping the suffixes leaves it unchanged; this
    covers every output that is a provider name, and every organization
    kept as its own category in which no suffix occurs any more. *)
Theorem hosting_category_idempotent_on_stripped_names :
  (forall provider : string,
      provider ∈ Solana.known_providers.*1 ->
      Solana.hosting_category provider = Some provider)
  /\ (forall org name : string,
      Solana.hosting_category org = Some name ->
      Solana.strip_suffixes name = name ->
      Solana.hosting_category name = Some name).
Proof.
  assert (Hfixed : forall provider : string,
             provider ∈ Solana.known_providers.*1 ->
             Solana.hosting_category provider = Some provider).
  { intros provider Hin.
    pose proof known_provider_names_fixed as Hall.
    rewrite Forall_forall in Hall. by apply Hall. }
  split; [exact Hfixed|].
  intros org name Hcat Hstripped. unfold Solana.hosting_category in Hcat.
  destruct (Solana.match_provider Solana.known_providers (Solana.strip_suffixes org))
    as [provider|] eqn:Hmatch.
  - injection Hcat as <-. eapply Hfixed, match_provider_name, Hmatch.
  - destruct (Solana.excluded (Solana.strip_suffixes org)) eqn:Hex; [discriminate|].
    injection Hcat as <-. unfold Solana.hosting_category.
    rewrite Hstripped, Hmatch, Hex. reflexivity.
Qed.

Lemma hosting_category_idempotent_on_stripped_names_witness :
  Solana.hosting_category "TeraSwitch Networks" = Some "TeraSwitch Networks".
Proof.
  apply (proj2 hosting_category_idempotent_on_stripped_names
           "TeraSwitch Networks Inc." "TeraSwitch Networks").
  - vm_compute. reflexivity.
  - vm_compute. reflexivity.
Defined.

(** C6 as stated fails: removing an occurrence of a suffix can leave a
    new occurrence behind, and each suffix is removed in one pass. The
    name ["X L LLCLC"] is normalized to ["X LLC"], which is normalized
    to ["X"]. *)
Lemma hosting_category_not_idempotent :
  Solana.hosting_category "X L LLCLC" = Some "X LLC"
  /\ Solana.hosting_category "X LLC" = Some "X"
  /\ Solana.hosting_category "X LLC" <> Some "X LLC".
Proof. vm_compute. repeat split; [reflexivity .. | discriminate]. Qed.

(** ** The legend of the pie chart (plotting.py) *)







(** A sum within the range of [int64] is not changed by the wrap. *)
Lemma wrap64_small (z : Z) : - 2 ^ 63 <= z < 2 ^ 63 -> Plotting.wrap64 z = z.
Proof.
  intros Hz. unfold Plotting.wrap64. rewrite Z.mod_small; lia.
Qed.





(** ** Rows with equal counts *)

(** The order in which [sort_values] leaves rows of equal count is not
    fixed by what the scripts ask of it: the two implementations above
    both return the rows in descending order of count, and differ on a
    table with a tie. *)
Remark tie_order_not_fixed_by_sort_values :
  @sort_values merge_sort_values [("DE", 3); ("US", 3)] = [("DE", 3); ("US", 3)]
  /\ @sort_values reversed_sort_values [("DE", 3); ("US", 3)] = [("US", 3); ("DE", 3)].
Proof. vm_compute. split; reflexivity. Qed.

(* ================================================================== *)
(** * Further properties of the code *)
(* ================================================================== *)

(** ** Counting labels *)

Lemma get_count_incr (key k : string) (counts : table) :
  get_count k (incr key counts)
  = get_count k counts + (if String.eqb key k then 1 else 0).
Proof.
  induction counts as [|[k' n] rest IH]; cbn [incr get_count].
  - destruct (String.eqb_spec key k); lia.
  - destruct (String.eqb_spec k' key) as [->|Hne]; cbn [get_count].
    + destruct (String.eqb_spec key k); lia.
    + destruct (String.eqb_spec k' k) as [->|Hne'].
      * destruct (String.eqb_spec key k); [congruence | lia].
      * exact IH.
Qed.

Lemma occurrences_cons (k l : string) (labels : list string) :
  occurrences k (l :: labels)
  = (if String.eqb l k then 1 else 0) + occurrences k labels.
Proof.
  unfold occurrences. cbn [List.filter]. rewrite (String.eqb_sym k l).
  destruct (String.eqb l k); cbn [length]; lia.
Qed.

Lemma get_count_fold_incr (k : string) (labels : list string) (counts : table) :
  get_count k (fold_left (fun c l => incr l c) labels counts)
  = get_count k counts + occurrences k labels.
Proof.
  revert counts. induction labels as [|l labels IH]; intros counts.
  - unfold occurrences. cbn. lia.
  - cbn [fold_left]. rewrite IH, get_count_incr, occurrences_cons. lia.
Qed.

Lemma categories_incr (key : string) (counts : table) :
  category <$> incr key counts
  = if bool_decide (key ∈ category <$> counts) then category <$> counts
    else (category <$> counts) ++ [key].
Proof.
  induction counts as [|[k n] rest IH]; [reflexivity|].
  cbn [incr]. destruct (String.eqb_spec k key) as [->|Hne].
  - rewrite bool_decide_eq_true_2; [reflexivity | apply list_elem_of_here].
  - rewrite fmap_cons, IH. cbn [fmap list_fmap category fst].
    destruct (decide (key ∈ category <$> rest)) as [Hin|Hnin].
    + rewrite !bool_decide_eq_true_2; [reflexivity | | assumption].
      by apply list_elem_of_further.
    + rewrite !bool_decide_eq_false_2; [reflexivity | | assumption].
      intros Hin. apply elem_of_cons in Hin as [Heq|Hin]; [|contradiction].
      unfold category in Heq. cbn in Heq. congruence.
Qed.

Lemma NoDup_categories_incr (key : string) (counts : table) :
  NoDup (category <$> counts) -> NoDup (category <$> incr key counts).
Proof.
  intros Hnd. rewrite categories_incr. case_bool_decide as Hin; [assumption|].
  apply NoDup_app. split; [assumption|]. split.
  - intros x Hx Hx'. apply list_elem_of_singleton in Hx' as ->. contradiction.
  - apply NoDup_singleton.
Qed.

Lemma NoDup_categories_fold {A} (f : table -> A -> table) (xs : list A) (counts : table) :
  (forall c x, NoDup (category <$> c) -> NoDup (category <$> f c x)) ->
  NoDup (category <$> counts) -> NoDup (category <$> fold_left f xs counts).
Proof.
  intros Hf. revert counts. induction xs as [|x xs IH]; intros counts Hnd; [assumption|].
  cbn [fold_left]. apply IH, Hf, Hnd.
Qed.

Lemma positive_counts_fold {A} (f : table -> A -> table) (xs : list A) (counts : table) :
  (forall c x, positive_counts c -> positive_counts (f c x)) ->
  positive_counts counts -> positive_counts (fold_left f xs counts).
Proof.
  intros Hf. revert counts. induction xs as [|x xs IH]; intros counts Hpos; [assumption|].
  cbn [fold_left]. apply IH, Hf, Hpos.
Qed.

Lemma get_count_absent (k : string) (counts : table) :
  k ∉ category <$> counts -> get_count k counts = 0.
Proof.
  induction counts as [|[k' n] rest IH]; [reflexivity|].
  intros Hnin. cbn [get_count]. destruct (String.eqb_spec k' k) as [->|Hne].
  - exfalso. apply Hnin. apply list_elem_of_here.
  - apply IH. intros Hin. apply Hnin. by apply list_elem_of_further.
Qed.

(** In a table with distinct categories and positive counts, the rows
    are the categories with their count. *)
Lemma row_get_count (counts : table) (k : string) (n : Z) :
  NoDup (category <$> counts) -> positive_counts counts ->
  (k, n) ∈ counts <-> get_count k counts = n /\ 0 < n.
Proof.
  unfold positive_counts.
  induction counts as [|[k' n'] rest IH]; intros Hnd Hpos.
  - split; [intros Hin; by apply elem_of_nil in Hin | cbn; lia].
  - rewrite fmap_cons in Hnd. apply NoDup_cons in Hnd as [Hk' Hnd].
    apply Forall_cons in Hpos as [Hn' Hpos]. unfold count in Hn'. cbn in Hn'.
    cbn [get_count]. rewrite elem_of_cons.
    destruct (String.eqb_spec k' k) as [->|Hne].
    + split.
      * intros [[= ->]|Hin]; [lia|]. exfalso. apply Hk'.
        apply (list_elem_of_fmap_2 category) in Hin. exact Hin.
      * intros [<- _]. by left.
    + rewrite <- (IH Hnd Hpos). split.
      * intros [[= <- <-]|Hin]; [contradiction | assumption].
      * intros Hin. by right.
Qed.

(** A table that is the count of a sequence of labels, in any order of
    its rows: the categories are distinct, and the rows are the labels
    that occur, each with the number of its occurrences. *)
Lemma counted_table_rows (labels : list string) (t : table) :
  t ≡ₚ count_labels labels ->
  NoDup (category <$> t)
  /\ forall k n, (k, n) ∈ t <-> n = occurrences k labels /\ 0 < n.
Proof.
  intros Hperm.
  assert (Hnd : NoDup (category <$> count_labels labels)).
  { unfold count_labels. apply NoDup_categories_fold; [|constructor].
    intros c x. apply NoDup_categories_incr. }
  assert (Hpos : positive_counts (count_labels labels)).
  { unfold count_labels. apply positive_counts_fold; [|constructor].
    intros c x. apply positive_counts_incr. }
  split.
  - by rewrite Hperm.
  - intros k n. rewrite Hperm, (row_get_count _ _ _ Hnd Hpos).
    unfold count_labels. rewrite get_count_fold_incr. cbn [get_count].
    split; intros [Hn Hpos']; split; lia.
Qed.

(** ** The geographic tables (bitcoin.py, ethereum.py) *)

Lemma fold_count_country (nodes : list Bitcoin.node_info) (counts : table) :
  fold_left Bitcoin.count_country nodes counts
  = fold_left (fun c l => incr l c) (omap Bitcoin.counted_country nodes) counts.
Proof.
  revert counts. induction nodes as [|n nodes IH]; intros counts; [reflexivity|].
  cbn [fold_left omap list_omap]. rewrite IH.
  unfold Bitcoin.count_country, Bitcoin.counted_country.
  destruct (Bitcoin.country_code n) as [country|]; [|reflexivity].
  destruct (negb (String.eqb country "") && negb (String.eqb country "null")
            && negb (String.eqb country "TOR")); reflexivity.
Qed.

Lemma occurrences_counted_country (country : string) (nodes : list Bitcoin.node_info) :
  country <> "" -> country <> "null" -> country <> "TOR" ->
  occurrences country (omap Bitcoin.counted_country nodes)
  = Bitcoin.nodes_in_country country nodes.
Proof.
  intros H1 H2 H3. unfold Bitcoin.nodes_in_country.
  induction nodes as [|n nodes IH]; [reflexivity|].
  cbn [omap list_omap List.filter]. unfold Bitcoin.counted_country at 1.
  destruct (Bitcoin.country_code n) as [c|] eqn:Hc.
  - destruct (String.eqb_spec c ""), (String.eqb_spec c "null"),
      (String.eqb_spec c "TOR"); cbn [negb andb];
      try (rewrite bool_decide_eq_false_2 by congruence; exact IH).
    rewrite occurrences_cons. destruct (String.eqb_spec c country) as [->|Hne].
    + rewrite bool_decide_eq_true_2 by reflexivity. cbn [length].
      rewrite IH. lia.
    + rewrite bool_decide_eq_false_2 by congruence. rewrite IH. lia.
  - rewrite bool_decide_eq_false_2 by congruence. exact IH.
Qed.

Lemma occurrences_only_counted (country : string) (nodes : list Bitcoin.node_info) :
  0 < occurrences country (omap Bitcoin.counted_country nodes) ->
  country <> "" /\ country <> "null" /\ country <> "TOR".
Proof.
  induction nodes as [|n nodes IH]; [unfold occurrences; cbn; lia|].
  cbn [omap list_omap]. unfold Bitcoin.counted_country at 1.
  destruct (Bitcoin.country_code n) as [c|]; [|exact IH].
  destruct (String.eqb_spec c ""), (String.eqb_spec c "null"),
    (String.eqb_spec c "TOR"); cbn [negb andb]; try exact IH.
  rewrite occurrences_cons. destruct (String.eqb_spec c country) as [->|Hne].
  - intros _. auto.
  - intros Hpos. apply IH. lia.
Qed.

(** X1. The geographic table of [BitcoinAnalyzer.process_data] has one
    row for each country code other than the empty string, ["null"] and
    ["TOR"] that some node has, with the number of nodes that have it
    as its count, and no other row. *)
Theorem bitcoin_geographic_counts_nodes_per_country `{SortValues}
        (nodes : list Bitcoin.node_info) :
  NoDup (category <$> Bitcoin.process_data_geographic nodes)
  /\ forall country n,
      (country, n) ∈ Bitcoin.process_data_geographic nodes <->
      country <> "" /\ country <> "null" /\ country <> "TOR"
      /\ n = Bitcoin.nodes_in_country country nodes /\ 0 < n.
Proof.
  unfold Bitcoin.process_data_geographic.
  destruct (counted_table_rows (omap Bitcoin.counted_country nodes)
              (sort_values (fold_left Bitcoin.count_country nodes [])))
    as [Hnd Hrows].
  { rewrite sort_values_perm, fold_count_country. reflexivity. }
  split; [exact Hnd|]. intros country n. rewrite Hrows. split.
  - intros [-> Hpos].
    destruct (occurrences_only_counted _ _ Hpos) as (H1 & H2 & H3).
    rewrite occurrences_counted_country in * by assumption. auto.
  - intros (H1 & H2 & H3 & -> & Hpos).
    rewrite occurrences_counted_country by assumption. auto.
Qed.

Lemma occurrences_country_name (country : string) (rows : list Ethereum.node) :
  occurrences country (omap Ethereum.country_name rows)
  = Ethereum.nodes_in_country country rows.
Proof.
  unfold Ethereum.nodes_in_country.
  induction rows as [|r rows IH]; [reflexivity|].
  cbn [omap list_omap List.filter].
  destruct (Ethereum.country_name r) as [c|] eqn:Hc.
  - rewrite occurrences_cons. destruct (String.eqb_spec c country) as [->|Hne].
    + rewrite bool_decide_eq_true_2 by reflexivity. cbn [length]. rewrite IH. lia.
    + rewrite bool_decide_eq_false_2 by congruence. rewrite IH. lia.
  - rewrite bool_decide_eq_false_2 by congruence. exact IH.
Qed.

(** X2. The table of [EthereumAnalyzer.process_geographic_distribution]
    has one row for each country name that some row of the data has,
    with the number of those rows as its count; rows without a country
    name are not counted, and without data the table is empty. *)
Theorem ethereum_geographic_counts_rows_per_country `{SortValues} :
  Ethereum.process_geographic_distribution None = []
  /\ forall rows : list Ethereum.node,
      NoDup (category <$> Ethereum.process_geographic_distribution (Some rows))
      /\ forall country n,
          (country, n) ∈ Ethereum.process_geographic_distribution (Some rows) <->
          n = Ethereum.nodes_in_country country rows /\ 0 < n.
Proof.
  split; [reflexivity|]. intros rows. cbn [Ethereum.process_geographic_distribution].
  destruct (counted_table_rows (omap Ethereum.country_name rows)
              (sort_values (count_labels (omap Ethereum.country_name rows))))
    as [Hnd Hrows]; [apply sort_values_perm|].
  split; [exact Hnd|]. intros country n.
  rewrite Hrows, occurrences_country_name. reflexivity.
Qed.

(** ** Counting by a labelling function *)

Lemma fold_count_by {A} (f : A -> option string) (step : table -> A -> table)
      (xs : list A) (counts : table) :
  (forall c x, step c x = match f x with Some l => incr l c | None => c end) ->
  fold_left step xs counts = fold_left (fun c l => incr l c) (omap f xs) counts.
Proof.
  intros Hstep. revert counts. induction xs as [|x xs IH]; intros counts; [reflexivity|].
  cbn [fold_left omap list_omap]. rewrite Hstep.
  destruct (f x); cbn [fold_left]; apply IH.
Qed.

Lemma occurrences_omap {A} (f : A -> option string) (k : string) (xs : list A) :
  occurrences k (omap f xs)
  = Z.of_nat (length (List.filter (fun x => bool_decide (f x = Some k)) xs)).
Proof.
  induction xs as [|x xs IH]; [reflexivity|].
  cbn [omap list_omap List.filter]. destruct (f x) as [l|] eqn:Hf.
  - rewrite occurrences_cons. destruct (String.eqb_spec l k) as [->|Hne].
    + rewrite bool_decide_eq_true_2 by reflexivity. cbn [length]. rewrite IH. lia.
    + rewrite bool_decide_eq_false_2 by congruence. rewrite IH. lia.
  - rewrite bool_decide_eq_false_2 by congruence. exact IH.
Qed.

Lemma elem_of_List_filter {A} (p : A -> bool) (x : A) (l : list A) :
  x ∈ List.filter p l <-> x ∈ l /\ p x = true.
Proof. rewrite !list_elem_of_In. apply List.filter_In. Qed.

Lemma NoDup_fmap_List_filter {A B} (f : A -> B) (p : A -> bool) (l : list A) :
  NoDup (f <$> l) -> NoDup (f <$> List.filter p l).
Proof.
  induction l as [|x l IH]; [trivial|].
  rewrite fmap_cons, NoDup_cons. intros [Hx Hnd]. cbn [List.filter].
  destruct (p x); [|by apply IH].
  rewrite fmap_cons, NoDup_cons. split; [|by apply IH].
  intros Hin. apply Hx. apply list_elem_of_fmap in Hin as (y & -> & Hy).
  apply elem_of_List_filter in Hy as [Hy _]. by apply list_elem_of_fmap_2.
Qed.

(** ** The client and hosting tables (bitcoin.py) *)

Lemma count_client_label (counts : table) (n : Bitcoin.node_info) :
  Bitcoin.count_client counts n
  = match Bitcoin.client_label n with Some l => incr l counts | None => counts end.
Proof.
  unfold Bitcoin.count_client, Bitcoin.client_label.
  destruct (Bitcoin.user_agent n) as [v|]; [|reflexivity].
  destruct (String.eqb v ""); [reflexivity|].
  destruct (contains "Knots" (strip_char "/" v)); [reflexivity|].
  destruct (length (split ":" (strip_char "/" v)) <? 2)%nat; [reflexivity|].
  destruct (existsb _ Bitcoin.invalid_keywords); reflexivity.
Qed.

Lemma client_label_names (n : Bitcoin.node_info) (client : string) :
  Bitcoin.client_label n = Some client -> client ∈ Bitcoin.client_names.
Proof.
  unfold Bitcoin.client_label.
  destruct (Bitcoin.user_agent n) as [v|]; [|discriminate].
  destruct (String.eqb v ""); [discriminate|].
  destruct (contains "Knots" (strip_char "/" v)).
  { intros [= <-]. apply list_elem_of_here. }
  destruct (length (split ":" (strip_char "/" v)) <? 2)%nat; [discriminate|].
  destruct (existsb _ Bitcoin.invalid_keywords); [discriminate|].
  generalize (hd "" (split ":" (strip_char "/" v))). intros name.
  unfold Bitcoin.valid_clients, Bitcoin.client_names. cbn [Bitcoin.lookup_client].
  repeat (destruct (String.eqb _ name);
          [intros [= <-]; repeat (first [apply list_elem_of_here
                                        | apply list_elem_of_further]) |]).
  discriminate.
Qed.

(** X3. The table of [BitcoinAnalyzer.process_client_distribution] has
    one row for each client name under which more than one node is
    counted, with the number of those nodes as its count, and no other
    row; its categories are among Bitcoin Knots, Bitcoin Core, btcd,
    bcoin and libbitcoin. Without data the table is empty. *)
Theorem bitcoin_client_table_counts_above_one `{SortValues} :
  Bitcoin.process_client_distribution None = []
  /\ forall nodes : list Bitcoin.node_info,
      NoDup (category <$> Bitcoin.process_client_distribution (Some nodes))
      /\ (forall client n,
            (client, n) ∈ Bitcoin.process_client_distribution (Some nodes) <->
            n = Bitcoin.nodes_with_client client nodes /\ 1 < n)
      /\ (forall r, r ∈ Bitcoin.process_client_distribution (Some nodes) ->
                    category r ∈ Bitcoin.client_names).
Proof.
  split; [reflexivity|]. intros nodes.
  cbn [Bitcoin.process_client_distribution]. unfold filter_count_gt.
  destruct (counted_table_rows (omap Bitcoin.client_label nodes)
              (sort_values (fold_left Bitcoin.count_client nodes [])))
    as [Hnd Hrows].
  { rewrite sort_values_perm.
    rewrite (fold_count_by Bitcoin.client_label); [reflexivity|].
    apply count_client_label. }
  assert (Hiff : forall client n,
             (client, n) ∈ List.filter (fun r => 1 <? count r)
                             (sort_values (fold_left Bitcoin.count_client nodes []))
             <-> n = Bitcoin.nodes_with_client client nodes /\ 1 < n).
  { intros client n. rewrite elem_of_List_filter, Hrows, occurrences_omap.
    unfold Bitcoin.nodes_with_client, count. cbn [snd].
    rewrite Z.ltb_lt. split; [intros [[-> _] Hlt] | intros [-> Hlt]]; repeat split; lia. }
  split; [by apply NoDup_fmap_List_filter|]. split; [exact Hiff|].
  intros [client n] Hin. apply Hiff in Hin as [-> Hlt]. cbn [category fst].
  unfold Bitcoin.nodes_with_client in Hlt.
  destruct (List.filter (fun n => bool_decide (Bitcoin.client_label n = Some client)) nodes)
    as [|node rest] eqn:Hfilter; [cbn in Hlt; lia|].
  assert (Hnode : In node (List.filter
                             (fun n => bool_decide (Bitcoin.client_label n = Some client))
                             nodes)) by (rewrite Hfilter; by left).
  apply List.filter_In in Hnode as [_ Hlabel].
  apply bool_decide_eq_true_1 in Hlabel. eapply client_label_names, Hlabel.
Qed.

Lemma count_hosting_label (counts : table) (n : Bitcoin.node_info) :
  Bitcoin.count_hosting counts n
  = match (if Bitcoin.is_tor n then None else Some (Bitcoin.hosting_label n)) with
    | Some l => incr l counts
    | None => counts
    end.
Proof. unfold Bitcoin.count_hosting. destruct (Bitcoin.is_tor n); reflexivity. Qed.

(** X4. The hosting table of [BitcoinAnalyzer.process_data] has one row
    for each hosting label other than ['Self-hosted/Unknown'] that some
    node outside Tor has, with the number of those nodes as its count,
    and no other row: nodes whose ASN field is ["TOR"] and nodes
    without a host name are in no row. *)
Theorem bitcoin_hosting_counts_nodes_outside_tor `{SortValues}
        (nodes : list Bitcoin.node_info) :
  NoDup (category <$> Bitcoin.process_data_hosting nodes)
  /\ forall label n,
      (label, n) ∈ Bitcoin.process_data_hosting nodes <->
      label <> "Self-hosted/Unknown"
      /\ n = Bitcoin.nodes_hosted_by label nodes /\ 0 < n.
Proof.
  unfold Bitcoin.process_data_hosting.
  destruct (counted_table_rows
              (omap (fun n => if Bitcoin.is_tor n then None
                              else Some (Bitcoin.hosting_label n)) nodes)
              (sort_values (fold_left Bitcoin.count_hosting nodes [])))
    as [Hnd Hrows].
  { rewrite sort_values_perm.
    rewrite (fold_count_by (fun n => if Bitcoin.is_tor n then None
                                     else Some (Bitcoin.hosting_label n)));
      [reflexivity|]. apply count_hosting_label. }
  split; [by apply NoDup_fmap_List_filter|].
  intros label n. rewrite elem_of_List_filter, Hrows, occurrences_omap.
  cbn [category fst].
  assert (Hcount :
    Z.of_nat (length (List.filter
      (fun x => bool_decide ((if Bitcoin.is_tor x then None
                              else Some (Bitcoin.hosting_label x)) = Some label)) nodes))
    = Bitcoin.nodes_hosted_by label nodes).
  { unfold Bitcoin.nodes_hosted_by. do 2 f_equal. apply List.filter_ext.
    intros x. apply bool_decide_ext. destruct (Bitcoin.is_tor x); split.
    - discriminate.
    - intros [[=] _].
    - intros [= <-]. auto.
    - intros [_ <-]. reflexivity. }
  rewrite Hcount. rewrite negb_true_iff.
  destruct (String.eqb_spec label "Self-hosted/Unknown") as [->|Hne].
  - split; [intros [_ [=]] | intros [Hne _]; contradiction].
  - split; [intros [[-> Hpos] _]; auto | intros (_ & -> & Hpos); auto].
Qed.

(** ** Valid addresses, exactly (ethereum.py) *)

Lemma all_in_range_byte_components (parts : list string) :
  Forall Ethereum.byte_component parts ->
  Ethereum.all_in_range parts = Return true.
Proof.
  induction 1 as [|part rest (n & Hint & Hrange) _ IH]; [reflexivity|].
  cbn [Ethereum.all_in_range]. rewrite Hint. cbn [bind].
  replace ((0 <=? n) && (n <=? 255)) with true; [exact IH|].
  symmetry. apply andb_true_iff. split; apply Z.leb_le; lia.
Qed.

(** X5. [_is_valid_ip] accepts exactly the strings with four components
    between dots, each read by [int] as a number from 0 to 255, and
    returns [False], without raising, on every other string. *)
Theorem is_valid_ip_iff_four_byte_components (ip : string) :
  (Ethereum._is_valid_ip ip = Return true <-> Ethereum.four_byte_components ip)
  /\ (Ethereum._is_valid_ip ip = Return false <-> ~ Ethereum.four_byte_components ip).
Proof.
  assert (Htrue : Ethereum._is_valid_ip ip = Return true
                  <-> Ethereum.four_byte_components ip).
  { split; [apply _is_valid_ip_four_byte_components|].
    intros (a & b & c & d & Hsplit & Ha & Hb & Hc & Hd).
    unfold Ethereum._is_valid_ip. rewrite Hsplit. cbn [length Nat.eqb negb].
    rewrite all_in_range_byte_components; [reflexivity|].
    repeat constructor; assumption. }
  split; [exact Htrue|].
  destruct (_is_valid_ip_returns ip) as [[|] Hvalid]; rewrite Hvalid.
  - split; [discriminate|]. intros Hnot. exfalso. apply Hnot, Htrue, Hvalid.
  - split; [|reflexivity]. intros _ Hfour. apply Htrue in Hfour. congruence.
Qed.

(** ** The addresses extracted, exactly (ethereum.py) *)

Lemma scan_parts_elem (parts ips ips' : list string) :
  Ethereum.scan_parts parts ips = Return ips' ->
  forall ip, ip ∈ ips' <->
    ip ∈ ips
    \/ (Ethereum._is_valid_ip ip = Return true
        /\ exists i : nat, parts !! i = Some "ip4" /\ parts !! S i = Some ip).
Proof.
  revert ips. induction parts as [|part rest IH]; intros ips Hscan ip.
  - injection Hscan as <-. split; [by left|].
    intros [Hin | (_ & i & Hi & _)]; [assumption | discriminate].
  - cbn [Ethereum.scan_parts] in Hscan. destruct rest as [|ip0 rest'].
    + injection Hscan as <-. split; [by left|].
      intros [Hin | (_ & i & _ & Hi)]; [assumption | discriminate].
    + destruct (String.eqb_spec part "ip4") as [->|Hne].
      * destruct (_is_valid_ip_returns ip0) as [valid Hvalid].
        rewrite Hvalid in Hscan. cbn [bind] in Hscan.
        rewrite (IH _ Hscan ip). destruct valid.
        -- rewrite elem_of_app, list_elem_of_singleton. split.
           ++ intros [[Hin | ->] | (Hv & i & H1 & H2)].
              ** by left.
              ** right. split; [assumption|]. by exists 0%nat.
              ** right. split; [assumption|]. by exists (S i).
           ++ intros [Hin | (Hv & [|i] & H1 & H2)].
              ** left. by left.
              ** cbn in H2. injection H2 as ->. left. by right.
              ** right. split; [assumption|]. by exists i.
        -- split.
           ++ intros [Hin | (Hv & i & H1 & H2)]; [by left|].
              right. split; [assumption|]. by exists (S i).
           ++ intros [Hin | (Hv & [|i] & H1 & H2)].
              ** by left.
              ** cbn in H2. injection H2 as ->. congruence.
              ** right. split; [assumption|]. by exists i.
      * rewrite (IH _ Hscan ip). split.
        -- intros [Hin | (Hv & i & H1 & H2)]; [by left|].
           right. split; [assumption|]. by exists (S i).
        -- intros [Hin | (Hv & [|i] & H1 & H2)].
           ++ by left.
           ++ cbn in H1. congruence.
           ++ right. split; [assumption|]. by exists i.
Qed.

Lemma scan_addrs_elem (addrs : list value) (ips ips' : list string) :
  Ethereum.scan_addrs addrs ips = Return ips' ->
  forall ip, ip ∈ ips' <->
    ip ∈ ips
    \/ (Ethereum._is_valid_ip ip = Return true
        /\ exists addr, VStr addr ∈ addrs /\ Ethereum.announces addr ip).
Proof.
  revert ips. induction addrs as [|a addrs IH]; intros ips Hscan ip.
  - injection Hscan as <-. split; [by left|].
    intros [Hin | (_ & addr & Hin & _)]; [assumption | by apply elem_of_nil in Hin].
  - assert (Hskip : forall v, (forall s, v <> VStr s) ->
                Ethereum.scan_addrs addrs ips = Return ips' ->
                ip ∈ ips' <->
                ip ∈ ips
                \/ (Ethereum._is_valid_ip ip = Return true
                    /\ exists addr, VStr addr ∈ (v :: addrs)
                                    /\ Ethereum.announces addr ip)).
    { intros v Hv Hrest. rewrite (IH _ Hrest ip). split.
      - intros [Hin | (Hvalid & addr & Hin & Hann)]; [by left|].
        right. split; [assumption|]. exists addr. split; [by right | assumption].
      - intros [Hin | (Hvalid & addr & Hin & Hann)]; [by left|].
        right. split; [assumption|]. exists addr. split; [|assumption].
        apply elem_of_cons in Hin as [Heq|Hin]; [|assumption].
        exfalso. by apply (Hv addr). }
    destruct a as [|s|l|]; cbn [Ethereum.scan_addrs] in Hscan;
      try (apply Hskip; [discriminate | exact Hscan]).
    clear Hskip.
    destruct (Ethereum.scan_parts (split "/" s) ips) as [mid|e] eqn:Hparts;
      [|discriminate]. cbn [bind] in Hscan.
    rewrite (IH _ Hscan ip), (scan_parts_elem _ _ _ Hparts ip). split.
    + intros [[Hin | (Hvalid & Hann)] | (Hvalid & addr & Hin & Hann)].
      * by left.
      * right. split; [assumption|]. exists s. split; [by left | exact Hann].
      * right. split; [assumption|]. exists addr. split; [by right | assumption].
    + intros [Hin | (Hvalid & addr & Hin & Hann)]; [left; by left|].
      apply elem_of_cons in Hin as [[= ->]|Hin].
      * left. right. split; [assumption | exact Hann].
      * right. split; [assumption|]. by exists addr.
Qed.

(** X6. The list that [_extract_ips] returns for a list of
    multiaddresses holds exactly the addresses that [_is_valid_ip]
    accepts and that some string of the list announces after a part
    ["ip4"]; elements of the list that are not strings contribute
    nothing. *)
Theorem extract_ips_exactly_announced_valid (addrs : list value) :
  exists ips,
    Ethereum._extract_ips (VList addrs) = Return ips
    /\ forall ip, ip ∈ ips <->
         Ethereum._is_valid_ip ip = Return true
         /\ exists addr, VStr addr ∈ addrs /\ Ethereum.announces addr ip.
Proof.
  cbn [Ethereum._extract_ips].
  destruct (scan_addrs_valid addrs [] ltac:(constructor)) as (ips & Hscan & _).
  rewrite Hscan. cbn [bind]. eexists. split; [reflexivity|].
  intros ip. rewrite elem_of_elements, elem_of_list_to_set.
  rewrite (scan_addrs_elem _ _ _ Hscan ip). split.
  - intros [Hin | Hann]; [by apply elem_of_nil in Hin | exact Hann].
  - intros Hann. by right.
Qed.

(** ** Lines that are not node objects (ethereum.py) *)





(** ** Reading the raw file (ethereum.py) *)









(** ** The client loop without the command line tool (solana.py) *)

Lemma lower_append (s1 s2 : string) : lower (s1 +:+ s2) = lower s1 +:+ lower s2.
Proof.
  induction s1 as [|c s1 IH]; [reflexivity|].
  rewrite append_cons. cbn [lower]. rewrite append_cons, IH. reflexivity.
Qed.

Lemma contains_MEV_lower (version : string) :
  contains "MEV" version = true -> contains "mev" (lower version) = true.
Proof.
  intros Hc. apply contains_occurs in Hc as (pre & post & ->).
  apply contains_occurs. exists (lower pre), (lower post).
  rewrite !lower_append. reflexivity.
Qed.

Lemma version_label_names (version : string) :
  Solana.version_label version ∈ Solana.api_client_names.
Proof.
  unfold Solana.version_label, Solana.api_client_names.
  repeat match goal with
         | |- context [if ?b then _ else _] => destruct b
         end;
    repeat (first [apply list_elem_of_here | apply list_elem_of_further]).
Qed.

Lemma api_client_label_names (n : Solana.node) :
  Solana.api_client_label n ∈ Solana.api_client_names.
Proof.
  assert (Hunknown : "Unknown" ∈ Solana.api_client_names)
    by (unfold Solana.api_client_names;
        repeat (first [apply list_elem_of_here | apply list_elem_of_further])).
  destruct n as [|gossip [[|version| |]|]]; cbn [Solana.api_client_label];
    try exact Hunknown; try apply version_label_names.
  destruct (String.eqb version ""); [exact Hunknown | apply version_label_names].
Qed.

(** X9. The loop of [SolanaAnalyzer.process_client_distribution] that
    runs without the command line tool counts every node exactly once:
    the counts of the table sum to the number of nodes, each row holds
    the number of nodes with its label, and the labels are among Jito
    Labs, Firedancer, Custom/MEV Client, Solana Labs and Unknown. A
    version string is counted as Custom/MEV Client only when it
    contains ["Custom"]: one that contains ["MEV"] is counted as Jito
    Labs by the earlier test on its lower-case form. *)
Theorem solana_api_only_counts_every_node `{SortValues} (data : list Solana.node) :
  sum_counts (Solana.process_client_distribution_api_only data)
  = Z.of_nat (length data)
  /\ NoDup (category <$> Solana.process_client_distribution_api_only data)
  /\ (forall label n,
        (label, n) ∈ Solana.process_client_distribution_api_only data <->
        n = Solana.nodes_with_client label data /\ 0 < n)
  /\ (forall r, r ∈ Solana.process_client_distribution_api_only data ->
                category r ∈ Solana.api_client_names)
  /\ (forall version,
        Solana.version_label version = "Custom/MEV Client" ->
        contains "Custom" version = true /\ contains "MEV" version = false).
Proof.
  unfold Solana.process_client_distribution_api_only.
  assert (Hfold : forall counts,
             fold_left Solana.count_client_api data counts
             = fold_left (fun c l => incr l c)
                         (omap (fun n => Some (Solana.api_client_label n)) data) counts).
  { intros counts. apply fold_count_by. reflexivity. }
  destruct (counted_table_rows
              (omap (fun n => Some (Solana.api_client_label n)) data)
              (sort_values (fold_left Solana.count_client_api data [])))
    as [Hnd Hrows].
  { rewrite sort_values_perm, Hfold. reflexivity. }
  assert (Hiff : forall label n,
             (label, n) ∈ sort_values (fold_left Solana.count_client_api data []) <->
             n = Solana.nodes_with_client label data /\ 0 < n).
  { intros label n. rewrite Hrows, occurrences_omap.
    unfold Solana.nodes_with_client.
    replace (List.filter (fun x => bool_decide (Some (Solana.api_client_label x) = Some label)) data)
      with (List.filter (fun x => bool_decide (Solana.api_client_label x = label)) data);
      [reflexivity|].
    apply List.filter_ext. intros x. apply bool_decide_ext.
    split; [congruence | intros [= ->]; reflexivity]. }
  split; [|split; [exact Hnd | split; [exact Hiff | split]]].
  - rewrite sum_counts_sort_values, Hfold, sum_counts_count_labels_from.
    change (sum_counts []) with 0.
    assert (Hlen : forall xs : list Solana.node,
               length (omap (fun n => Some (Solana.api_client_label n)) xs) = length xs).
    { induction xs as [|x xs IH]; [reflexivity|]. cbn. by rewrite IH. }
    rewrite Hlen. lia.
  - intros [label n] Hin. apply Hiff in Hin as [-> Hpos]. cbn [category fst].
    unfold Solana.nodes_with_client in Hpos.
    destruct (List.filter (fun n => bool_decide (Solana.api_client_label n = label)) data)
      as [|node rest] eqn:Hfilter; [cbn in Hpos; lia|].
    assert (Hnode : In node (List.filter
                               (fun n => bool_decide (Solana.api_client_label n = label))
                               data)) by (rewrite Hfilter; by left).
    apply List.filter_In in Hnode as [_ Hlabel].
    apply bool_decide_eq_true_1 in Hlabel as <-. apply api_client_label_names.
  - intros version. unfold Solana.version_label. cbn [existsb].
    destruct (contains "jito" (lower version)); cbn [orb]; [discriminate|].
    destruct (contains "mev" (lower version)) eqn:Hmev; cbn [orb]; [discriminate|].
    destruct (contains "firedancer" (lower version)); cbn [orb]; [discriminate|].
    destruct (contains "jump" (lower version)); cbn [orb]; [discriminate|].
    destruct (contains "MEV" version) eqn:HMEV.
    { apply contains_MEV_lower in HMEV. congruence. }
    cbn [orb]. destruct (contains "Custom" version); [auto | discriminate].
Qed.

(** ** The hosting table (solana.py) *)

Lemma count_node_hosting_label (inet_aton : string -> bool)
      (asn : string -> outcome (option string)) (counts : table) (n : Solana.node) :
  Solana.count_node inet_aton asn counts n
  = match Solana.hosting_label inet_aton asn n with
    | Some l => incr l counts
    | None => counts
    end.
Proof.
  unfold Solana.count_node, Solana.hosting_label.
  destruct (Solana.gossip_ip n) as [ip|e]; [|reflexivity].
  destruct (inet_aton ip); [|reflexivity].
  destruct (asn ip) as [[org|]|e]; try reflexivity.
  cbn [Solana.count_org]. destruct (String.eqb org ""); reflexivity.
Qed.

Lemma sort_values_nil `{SortValues} : sort_values [] = [].
Proof. apply Permutation_nil. symmetry. apply sort_values_perm. Qed.

Lemma solana_hosting_table `{SortValues} (inet_aton : string -> bool)
      (asn : string -> outcome (option string)) (data : list Solana.node) :
  Solana.process_hosting_distribution inet_aton (Some asn) data
  = filter_count_gt 2 (sort_values (fold_left (Solana.count_node inet_aton asn) data [])).
Proof.
  unfold Solana.process_hosting_distribution.
  destruct (fold_left (Solana.count_node inet_aton asn) data []); [|reflexivity].
  rewrite sort_values_nil. reflexivity.
Qed.

(** X10. The table of [SolanaAnalyzer.process_hosting_distribution] is
    empty when the database cannot be opened. Otherwise it has one row
    for each category under which more than two nodes are counted, with
    the number of those nodes as its count, and no other row; a node is
    counted when its gossip address is accepted by [inet_aton] and the
    database gives a non-empty organization for it that is not
    excluded, and every category is the result of the normalization of
    an organization name. *)
Theorem solana_hosting_counts_above_two `{SortValues}
        (inet_aton : string -> bool) (data : list Solana.node) :
  Solana.process_hosting_distribution inet_aton None data = []
  /\ forall asn : string -> outcome (option string),
      NoDup (category <$> Solana.process_hosting_distribution inet_aton (Some asn) data)
      /\ (forall label n,
            (label, n) ∈ Solana.process_hosting_distribution inet_aton (Some asn) data <->
            n = Solana.nodes_hosted_by inet_aton asn label data /\ 2 < n)
      /\ (forall r,
            r ∈ Solana.process_hosting_distribution inet_aton (Some asn) data ->
            exists org, Solana.hosting_category org = Some (category r)).
Proof.
  split; [reflexivity|]. intros asn. rewrite solana_hosting_table.
  unfold filter_count_gt.
  destruct (counted_table_rows (omap (Solana.hosting_label inet_aton asn) data)
              (sort_values (fold_left (Solana.count_node inet_aton asn) data [])))
    as [Hnd Hrows].
  { rewrite sort_values_perm.
    rewrite (fold_count_by (Solana.hosting_label inet_aton asn)); [reflexivity|].
    apply count_node_hosting_label. }
  assert (Hiff : forall label n,
             (label, n) ∈ List.filter (fun r => 2 <? count r)
                            (sort_values (fold_left (Solana.count_node inet_aton asn) data []))
             <-> n = Solana.nodes_hosted_by inet_aton asn label data /\ 2 < n).
  { intros label n. rewrite elem_of_List_filter, Hrows, occurrences_omap.
    unfold Solana.nodes_hosted_by, count. cbn [snd]. rewrite Z.ltb_lt.
    split; [intros [[-> _] Hlt] | intros [-> Hlt]]; repeat split; lia. }
  split; [by apply NoDup_fmap_List_filter|]. split; [exact Hiff|].
  intros [label n] Hin. apply Hiff in Hin as [-> Hlt]. cbn [category fst].
  unfold Solana.nodes_hosted_by in Hlt.
  destruct (List.filter
              (fun n => bool_decide (Solana.hosting_label inet_aton asn n = Some label)) data)
    as [|node rest] eqn:Hfilter; [cbn in Hlt; lia|].
  assert (Hnode : In node (List.filter
                             (fun n => bool_decide
                                         (Solana.hosting_label inet_aton asn n = Some label))
                             data)) by (rewrite Hfilter; by left).
  apply List.filter_In in Hnode as [_ Hlabel].
  apply bool_decide_eq_true_1 in Hlabel. unfold Solana.hosting_label in Hlabel.
  destruct (Solana.gossip_ip node) as [ip|e]; [|discriminate].
  destruct (inet_aton ip); [|discriminate].
  destruct (asn ip) as [[org|]|e]; try discriminate.
  destruct (String.eqb org ""); [discriminate|]. by exists org.
Qed.

Example solana_hosting_example :
  @Solana.process_hosting_distribution merge_sort_values
    (fun ip => negb (String.eqb ip ""))
    (Some (fun ip => if String.eqb ip "65.21.0.1" then Return (Some "Hetzner Online GmbH")
                     else if String.eqb ip "10.0.0.1" then Raise AddressNotFoundError
                     else Return (Some "Comcast Cable Communications, LLC")))
    [ Solana.Dict (Some (VStr "65.21.0.1:8001")) (Some (VStr "1.18.23"));
      Solana.Dict (Some (VStr "65.21.0.1:8001")) None;
      Solana.Dict (Some (VStr "65.21.0.1:8000")) None;
      Solana.Dict None (Some (VStr "1.18.23"));
      Solana.NotADict;
      Solana.Dict (Some (VStr "10.0.0.1:8001")) None;
      Solana.Dict (Some (VStr "73.1.1.1:8001")) None ]
  = [("Hetzner", 3)].
Proof. vm_compute. reflexivity. Qed.

(** ** The client name of a version string (utils.py) *)

Lemma split_hd (sep : ascii) (s : string) :
  exists rest,
    s = hd "" (split sep s) +:+ rest
    /\ (rest = "" \/ exists r, rest = String sep r)
    /\ contains (String sep "") (hd "" (split sep s)) = false.
Proof.
  induction s as [|c s (rest & Hs & Hrest & Hnone)].
  - exists "". cbn. auto.
  - cbn [split]. destruct (Ascii.eqb_spec c sep) as [->|Hne].
    + exists (String sep s). cbn [hd]. split; [reflexivity|].
      split; [right; by exists s | reflexivity].
    + destruct (split sep s) as [|h tl] eqn:Hsplit.
      * exists rest. cbn [hd] in *. rewrite append_cons, <- Hs.
        split; [reflexivity|]. split; [assumption|].
        cbn [contains startswith]. apply Ascii.eqb_neq in Hne.
        rewrite (Ascii.eqb_sym sep c), Hne. reflexivity.
      * exists rest. cbn [hd] in *. rewrite append_cons, <- Hs.
        split; [reflexivity|]. split; [assumption|].
        cbn [contains startswith]. apply Ascii.eqb_neq in Hne.
        rewrite (Ascii.eqb_sym sep c), Hne. cbn [andb orb]. exact Hnone.
Qed.

(** X11. [DataProcessor.extract_client_name] returns, for a string,
    the beginning of the string stripped of slashes at both ends up to
    its first colon: the result contains no colon, and the stripped
    string is the result alone or the result followed by a colon and a
    remainder. For a value that is not a string it returns
    ['Unknown']. *)
Theorem extract_client_name_up_to_first_colon :
  (forall s : string,
      contains ":" (Utils.extract_client_name (VStr s)) = false
      /\ exists rest,
          strip_char "/" s = Utils.extract_client_name (VStr s) +:+ rest
          /\ (rest = "" \/ exists r, rest = ":" +:+ r))
  /\ (forall v : value,
        (forall s, v <> VStr s) -> Utils.extract_client_name v = "Unknown").
Proof.
  split.
  - intros s. cbn [Utils.extract_client_name].
    destruct (split_hd ":" (strip_char "/" s)) as (rest & Hs & Hrest & Hnone).
    split; [exact Hnone|]. exists rest. split; [exact Hs | exact Hrest].
  - intros [|s| |] Hv; try reflexivity. by destruct (Hv s).
Qed.

Example extract_client_name_examples :
  Utils.extract_client_name (VStr "/Satoshi:27.0.0/") = "Satoshi"
  /\ Utils.extract_client_name (VStr "/btcwire:0.5.0/btcd:0.24.0/") = "btcwire"
  /\ Utils.extract_client_name (VStr "bcoin") = "bcoin"
  /\ Utils.extract_client_name VNone = "Unknown".
Proof. repeat split; reflexivity. Qed.

(** ** Converting a converted name (utils.py) *)

Lemma display_names_are_not_codes :
  Forall (fun entry : string * string => snd entry ∉ Utils.COUNTRY_MAPPING_items.*1)
         Utils.COUNTRY_MAPPING_items.
Proof.
  apply (bool_decide_unpack
           (Forall (fun entry : string * string =>
                      snd entry ∉ Utils.COUNTRY_MAPPING_items.*1)
                   Utils.COUNTRY_MAPPING_items)).
  vm_compute. reflexivity.
Qed.

Lemma get_country_name_cases (code : string) :
  (forall name, (code, name) ∈ Utils.COUNTRY_MAPPING_items ->
                Utils.get_country_name code = name)
  /\ (code ∉ Utils.COUNTRY_MAPPING_items.*1 ->
      Utils.get_country_name code = code).
Proof.
  unfold Utils.get_country_name. split.
  - intros name Hin. apply COUNTRY_MAPPING_lookup in Hin. by rewrite Hin.
  - intros Hnot. unfold Utils.COUNTRY_MAPPING.
    apply (not_elem_of_list_to_map (M := gmap string)) in Hnot. by rewrite Hnot.
Qed.

(** X12. [CountryMapper.get_country_name] applied to one of its results
    returns that result: no display name of the table is a code of the
    table, so that converting the categories of a file whose
    categories are already display names changes nothing. *)
Theorem get_country_name_idempotent (code : string) :
  Utils.get_country_name (Utils.get_country_name code)
  = Utils.get_country_name code.
Proof.
  destruct (decide (code ∈ Utils.COUNTRY_MAPPING_items.*1)) as [Hin|Hnin].
  - apply list_elem_of_fmap in Hin as ([code' name] & -> & Hin). cbn [fst].
    rewrite (proj1 (get_country_name_cases code') name Hin).
    pose proof display_names_are_not_codes as Hall.
    rewrite Forall_forall in Hall. specialize (Hall _ Hin). cbn [snd] in Hall.
    apply (proj2 (get_country_name_cases name) Hall).
  - rewrite (proj2 (get_country_name_cases code) Hnin).
    apply (proj2 (get_country_name_cases code) Hnin).
Qed.

(** ** The wedges of the pie chart (plotting.py) *)

Lemma sum_counts_nonnegative (t : table) :
  nonnegative_counts t -> 0 <= sum_counts t.
Proof.
  induction 1 as [|r t Hr _ IH]; [reflexivity|]. rewrite sum_counts_cons. lia.
Qed.

(** While the sum of a table of counts that are not negative stays in
    the range of [int64], no sum of a group wraps. *)
Lemma add_group_sum (r : row) (groups : table) :
  nonnegative_counts groups -> 0 <= count r ->
  count r + sum_counts groups < 2 ^ 63 ->
  sum_counts (Plotting.add_group r groups) = count r + sum_counts groups
  /\ nonnegative_counts (Plotting.add_group r groups).
Proof.
  unfold nonnegative_counts.
  induction 1 as [|g rest Hg Hrest IH]; intros Hr Hsum.
  - split; [reflexivity | by repeat constructor].
  - pose proof (sum_counts_nonnegative rest Hrest) as Hrest_sum.
    cbv beta in Hg. rewrite sum_counts_cons in Hsum. cbn [Plotting.add_group].
    destruct (String.compare (category r) (category g)).
    + rewrite !sum_counts_cons. unfold count at 1. cbn [snd].
      rewrite wrap64_small by lia. split; [lia|].
      constructor; [unfold count at 1; cbn [snd]; lia | assumption].
    + rewrite !sum_counts_cons. split; [lia|]. by repeat constructor.
    + destruct IH as [IHsum IHnn]; [assumption | lia |].
      rewrite sum_counts_cons, IHsum, sum_counts_cons. split; [lia|]. by constructor.
Qed.

Lemma sum_counts_groupby_sum (t : table) :
  nonnegative_counts t -> sum_counts t < 2 ^ 63 ->
  sum_counts (Plotting.groupby_sum t) = sum_counts t.
Proof.
  unfold Plotting.groupby_sum. intros Hnn Hsum.
  assert (Hfold : forall groups,
             nonnegative_counts groups ->
             sum_counts groups + sum_counts t < 2 ^ 63 ->
             sum_counts (fold_left (fun g r => Plotting.add_group r g) t groups)
             = sum_counts groups + sum_counts t).
  { clear Hsum. induction Hnn as [|r t Hr Hnn IH]; intros groups Hgroups Hsum;
      cbn [fold_left].
    - change (sum_counts []) with 0. lia.
    - rewrite sum_counts_cons in Hsum.
      pose proof (sum_counts_nonnegative t Hnn) as Ht.
      destruct (add_group_sum r groups) as [Hadd Hadd_nn]; [assumption | lia | lia |].
      rewrite IH, Hadd, sum_counts_cons; [lia | assumption | lia]. }
  rewrite Hfold; [| constructor |]; change (sum_counts []) with 0; lia.
Qed.

Lemma count_le_sum_counts (t : table) (r : row) :
  nonnegative_counts t -> r ∈ t -> count r <= sum_counts t.
Proof.
  intros Hnn Hin. induction Hnn as [|r' t Hr' Hnn IH]; [by apply elem_of_nil in Hin|].
  rewrite sum_counts_cons. pose proof (sum_counts_nonnegative t Hnn).
  apply elem_of_cons in Hin as [->|Hin]; [lia|]. specialize (IH Hin). lia.
Qed.

Lemma nonnegative_counts_filter (f : row -> bool) (t : table) :
  nonnegative_counts t -> nonnegative_counts (List.filter f t).
Proof.
  unfold nonnegative_counts. rewrite !Forall_forall. intros Hnn r Hin.
  apply elem_of_List_filter in Hin as [Hin _]. by apply Hnn.
Qed.

(** Rows that pass one of two tests that exclude each other, or have a
    zero count, are split by the tests without loss. *)
Lemma sum_counts_split (f g : row -> bool) (t : table) :
  Forall (fun r => (f r = negb (g r)) \/ (count r = 0 /\ f r = false /\ g r = false)) t ->
  sum_counts (List.filter f t) + sum_counts (List.filter g t) = sum_counts t.
Proof.
  induction 1 as [|r t Hr _ IH]; [reflexivity|].
  cbn [List.filter]. destruct Hr as [Hfg | (H0 & Hf & Hg)].
  - rewrite Hfg. destruct (g r); cbn [negb]; rewrite !sum_counts_cons; lia.
  - rewrite Hf, Hg, sum_counts_cons. lia.
Qed.

Lemma percentage_tests_exclusive (n total : Z) :
  0 <= n -> 0 <= total ->
  Plotting.percentage_ge_threshold n total
  = negb (Plotting.percentage_lt_threshold n total)
  \/ (n = 0 /\ Plotting.percentage_ge_threshold n total = false
      /\ Plotting.percentage_lt_threshold n total = false).
Proof.
  intros Hn Ht. unfold Plotting.percentage_ge_threshold, Plotting.percentage_lt_threshold.
  destruct (Z.ltb_spec 0 total).
  - left. destruct (Z.leb_spec (3 * total) (200 * n)), (Z.ltb_spec (200 * n) (3 * total));
      try reflexivity; lia.
  - destruct (Z.ltb_spec total 0); [lia|].
    destruct (Z.ltb_spec 0 n), (Z.ltb_spec n 0);
      first [ lia | by left | right; repeat split; lia ].
Qed.

Lemma notna_converted (data : list Plotting.csv_row) :
  snd <$> Plotting.notna
            (List.map (fun r : Plotting.csv_row =>
                         (Utils.get_country_name <$> fst r, snd r)) data)
  = snd <$> Plotting.notna data.
Proof.
  unfold Plotting.notna.
  induction data as [|[[c|] n] data IH]; [reflexivity| |];
    cbn [List.map omap list_omap fst snd fmap option_fmap option_map list_fmap] in *;
    rewrite ?IH; reflexivity.
Qed.

Lemma total_count_converted (data : list Plotting.csv_row) :
  Plotting.total_count
    (List.map (fun r : Plotting.csv_row => (Utils.get_country_name <$> fst r, snd r)) data)
  = Plotting.total_count data.
Proof.
  unfold Plotting.total_count. f_equal. unfold Plotting.exact_total.
  induction data as [|r data IH]; [reflexivity|]. cbn [List.map foldr snd]. by rewrite IH.
Qed.

Lemma sum_counts_snd (t1 t2 : table) :
  snd <$> t1 = snd <$> t2 -> sum_counts t1 = sum_counts t2.
Proof.
  revert t2. induction t1 as [|r1 t1 IH]; intros [|r2 t2]; try discriminate; [reflexivity|].
  rewrite !fmap_cons. intros [= Hr Ht]. rewrite !sum_counts_cons, (IH _ Ht).
  unfold count. lia.
Qed.

Lemma nonnegative_counts_snd (t1 t2 : table) :
  snd <$> t1 = snd <$> t2 -> nonnegative_counts t1 -> nonnegative_counts t2.
Proof.
  unfold nonnegative_counts. revert t2.
  induction t1 as [|r1 t1 IH]; intros [|r2 t2]; try discriminate; [constructor|].
  rewrite !fmap_cons. intros [= Hr Ht] Hnn. apply Forall_cons in Hnn as [H1 Hnn].
  constructor; [unfold count in *; lia | by apply IH].
Qed.

Lemma nonnegative_counts_notna (data : list Plotting.csv_row) :
  Forall (fun r => 0 <= snd r) data -> nonnegative_counts (Plotting.notna data).
Proof.
  unfold nonnegative_counts, Plotting.notna.
  induction 1 as [|[[c|] n] data Hr _ IH]; cbn [omap list_omap fst snd]; [constructor| |];
    [constructor; [exact Hr | exact IH] | exact IH].
Qed.

Lemma exact_total_nonnegative (data : list Plotting.csv_row) :
  Forall (fun r => 0 <= snd r) data -> 0 <= Plotting.exact_total data.
Proof.
  unfold Plotting.exact_total.
  induction 1 as [|r data Hr _ IH]; [reflexivity|]. cbn [foldr]. lia.
Qed.

(** The total of a file whose counts are not negative and sum to a
    number in the range of [int64] is that number. *)
Lemma total_count_exact (data : list Plotting.csv_row) :
  Forall (fun r => 0 <= snd r) data -> Plotting.exact_total data < 2 ^ 63 ->
  Plotting.total_count data = Plotting.exact_total data.
Proof.
  intros Hnn Hrange. pose proof (exact_total_nonnegative data Hnn).
  unfold Plotting.total_count. apply wrap64_small. lia.
Qed.

Lemma sum_counts_notna_le (data : list Plotting.csv_row) :
  Forall (fun r => 0 <= snd r) data ->
  sum_counts (Plotting.notna data) <= Plotting.exact_total data.
Proof.
  unfold Plotting.exact_total, Plotting.notna.
  induction 1 as [|[[c|] n] data Hr _ IH]; cbn [omap list_omap fst snd foldr] in *.
  - reflexivity.
  - rewrite sum_counts_cons. unfold count. cbn [snd]. lia.
  - lia.
Qed.

(** The table of [filtered_data] in terms of the sorted rows. *)
Lemma filtered_data_unfold `{SortValues} (data : list Plotting.csv_row)
      (convert_countries : bool) :
  exists rows : table,
    snd <$> rows = snd <$> Plotting.notna data
    /\ let sorted_data := sort_values rows in
       let total := Plotting.total_count data in
       let large_data :=
         List.filter (fun r => Plotting.percentage_ge_threshold (count r) total) sorted_data in
       let others :=
         Plotting.wrap64
           (sum_counts (List.filter (fun r => Plotting.percentage_lt_threshold (count r) total)
                                    sorted_data)) in
       Plotting.filtered_data data convert_countries
       = if 0 <? others then Plotting.groupby_sum (large_data ++ [("Others", others)])
         else large_data.
Proof.
  unfold Plotting.filtered_data. destruct convert_countries.
  - eexists. split; [apply notna_converted|]. cbv zeta.
    rewrite total_count_converted. reflexivity.
  - exists (Plotting.notna data). split; reflexivity.
Qed.

(** The rows below the threshold, when no count is negative and the
    counts of the file sum to a number in the range of [int64]: their
    sum does not wrap. *)
Lemma others_exact `{SortValues} (data : list Plotting.csv_row) (rows : table)
      (f : row -> bool) :
  Forall (fun r => 0 <= snd r) data -> Plotting.exact_total data < 2 ^ 63 ->
  snd <$> rows = snd <$> Plotting.notna data ->
  nonnegative_counts (sort_values rows)
  /\ sum_counts (sort_values rows) = sum_counts (Plotting.notna data)
  /\ 0 <= sum_counts (List.filter f (sort_values rows)) <= sum_counts (sort_values rows)
  /\ Plotting.wrap64 (sum_counts (List.filter f (sort_values rows)))
     = sum_counts (List.filter f (sort_values rows)).
Proof.
  intros Hnn Hrange Hrows.
  assert (Hsorted_nn : nonnegative_counts (sort_values rows)).
  { unfold nonnegative_counts. rewrite sort_values_perm.
    eapply nonnegative_counts_snd; [symmetry; exact Hrows|].
    by apply nonnegative_counts_notna. }
  assert (Hsum : sum_counts (sort_values rows) = sum_counts (Plotting.notna data)).
  { rewrite sum_counts_sort_values. by apply sum_counts_snd. }
  assert (Hpart : 0 <= sum_counts (List.filter f (sort_values rows))
                  <= sum_counts (sort_values rows)).
  { split; [by apply sum_counts_nonnegative, nonnegative_counts_filter|].
    pose proof (sum_counts_split f (fun r => negb (f r)) (sort_values rows)) as Hsplit.
    pose proof (sum_counts_nonnegative
                  (List.filter (fun r => negb (f r)) (sort_values rows))
                  (nonnegative_counts_filter _ _ Hsorted_nn)).
    rewrite <- Hsplit; [lia|]. apply Forall_forall. intros r _. left.
    by rewrite negb_involutive. }
  repeat split; try assumption; try apply Hpart.
  pose proof (sum_counts_notna_le data Hnn). apply wrap64_small. lia.
Qed.

(** X13. When no count of the file is negative and the counts sum to a
    number in the range of [int64], the wedges of the chart account
    for every counted row that has a category: the counts of
    [filtered_data] sum to the counts of the rows of the file with a
    category, whether or not an [Others] row is made. *)
Theorem filtered_data_keeps_total `{SortValues} (data : list Plotting.csv_row)
        (convert_countries : bool) :
  Forall (fun r => 0 <= snd r) data ->
  Plotting.exact_total data < 2 ^ 63 ->
  sum_counts (Plotting.filtered_data data convert_countries)
  = sum_counts (Plotting.notna data).
Proof.
  intros Hnn Hrange.
  destruct (filtered_data_unfold data convert_countries) as (rows & Hrows & Hfd).
  cbv zeta in Hfd. rewrite Hfd. clear Hfd.
  rewrite (total_count_exact data Hnn Hrange).
  pose proof (exact_total_nonnegative data Hnn) as Htotal.
  pose proof (sum_counts_notna_le data Hnn) as Hle.
  set (total := Plotting.exact_total data) in *.
  destruct (others_exact data rows
              (fun r => Plotting.percentage_lt_threshold (count r) total)
              Hnn Hrange Hrows) as (Hsorted_nn & Hsum & Hothers & ->).
  set (sorted_data := sort_values rows) in *.
  assert (Hsplit :
    sum_counts (List.filter (fun r => Plotting.percentage_ge_threshold (count r) total)
                            sorted_data)
    + sum_counts (List.filter (fun r => Plotting.percentage_lt_threshold (count r) total)
                              sorted_data)
    = sum_counts sorted_data).
  { apply sum_counts_split. eapply Forall_impl; [exact Hsorted_nn|].
    intros r Hr. cbn beta. by apply percentage_tests_exclusive. }
  rewrite <- Hsum.
  destruct (Z.ltb_spec 0
              (sum_counts (List.filter
                             (fun r => Plotting.percentage_lt_threshold (count r) total)
                             sorted_data))).
  - rewrite sum_counts_groupby_sum.
    + rewrite sum_counts_app, sum_counts_cons.
      change (sum_counts []) with 0. unfold count at 2. cbn [snd]. lia.
    + apply Forall_app. split; [by apply nonnegative_counts_filter|].
      constructor; [|constructor]. cbv beta. unfold count at 1. cbn [snd]. lia.
    + rewrite sum_counts_app, sum_counts_cons.
      change (sum_counts []) with 0. unfold count at 2. cbn [snd]. lia.
  - lia.
Qed.

Lemma filtered_data_keeps_total_witness :
  sum_counts (@Plotting.filtered_data merge_sort_values
                [(Some "DE", 70); (None, 5); (Some "US", 29); (Some "FR", 1)] true)
  = 100.
Proof.
  apply (@filtered_data_keeps_total merge_sort_values
           [(Some "DE", 70); (None, 5); (Some "US", 29); (Some "FR", 1)] true).
  - repeat constructor; cbn; lia.
  - vm_compute. reflexivity.
Defined.

(** Beyond the range of [int64] the total wraps: the total of these two
    rows is negative, both rows are below the threshold, their sum is
    negative as well, and the chart has no wedge. *)
Example filtered_data_wraps :
  @Plotting.filtered_data merge_sort_values [(Some "A", 2 ^ 63 - 1); (Some "B", 1)] false
  = []
  /\ Plotting.total_count [(Some "A", 2 ^ 63 - 1); (Some "B", 1)] = - 2 ^ 63.
Proof. vm_compute. split; reflexivity. Qed.

Lemma HdRel_add_group (g0 r : row) (groups : table) :
  HdRel Plotting.category_lt g0 groups -> Plotting.category_lt g0 r ->
  HdRel Plotting.category_lt g0 (Plotting.add_group r groups).
Proof.
  intros Hhd Hr. destruct groups as [|g rest]; [by constructor|].
  cbn [Plotting.add_group]. inversion Hhd as [|? ? Hg]; subst.
  destruct (String.compare (category r) (category g)); by constructor.
Qed.

Lemma Sorted_add_group (r : row) (groups : table) :
  Sorted Plotting.category_lt groups ->
  Sorted Plotting.category_lt (Plotting.add_group r groups).
Proof.
  induction 1 as [|g rest Hs IH Hhd]; [by repeat constructor|].
  cbn [Plotting.add_group].
  destruct (String.compare (category r) (category g)) eqn:Hcmp.
  - constructor; [assumption|].
    destruct rest as [|g' rest']; constructor.
    inversion Hhd; subst. assumption.
  - constructor; [by constructor | by constructor].
  - constructor; [assumption|]. apply HdRel_add_group; [assumption|].
    unfold Plotting.category_lt. rewrite String.compare_antisym, Hcmp. reflexivity.
Qed.

Lemma Sorted_groupby_sum (t : table) :
  Sorted Plotting.category_lt (Plotting.groupby_sum t).
Proof.
  unfold Plotting.groupby_sum.
  assert (Hfold : forall groups,
             Sorted Plotting.category_lt groups ->
             Sorted Plotting.category_lt
                    (fold_left (fun g r => Plotting.add_group r g) t groups)).
  { induction t as [|r t IH]; intros groups Hs; [assumption|].
    cbn [fold_left]. by apply IH, Sorted_add_group. }
  apply Hfold. constructor.
Qed.

Lemma category_add_group (r : row) (groups : table) :
  category r ∈ category <$> Plotting.add_group r groups.
Proof.
  induction groups as [|g rest IH]; [apply list_elem_of_here|].
  cbn [Plotting.add_group].
  destruct (String.compare (category r) (category g)) eqn:Hcmp.
  - apply String.compare_eq_iff in Hcmp. rewrite Hcmp. apply list_elem_of_here.
  - apply list_elem_of_here.
  - rewrite fmap_cons. by apply list_elem_of_further.
Qed.

Lemma category_groupby_sum_last (t : table) (r : row) :
  category r ∈ category <$> Plotting.groupby_sum (t ++ [r]).
Proof.
  unfold Plotting.groupby_sum. rewrite fold_left_app. cbn [fold_left].
  apply category_add_group.
Qed.

(** X14. When no count of the file is negative, the counts sum to a
    number below [2 ^ 50] and some row with a category has a positive
    count below 1.5% of the total, the chart has an [Others] wedge and
    each wedge has a category smaller, as a string, than that of the
    next wedge: the order of the counts that [sort_values] made is
    replaced by the order of the keys of [groupby]. *)
Theorem filtered_data_by_category_with_others `{SortValues}
        (data : list Plotting.csv_row) (convert_countries : bool) :
  Forall (fun r => 0 <= snd r) data ->
  Plotting.exact_total data < 2 ^ 50 ->
  (exists c n, (Some c, n) ∈ data /\ 0 < n
               /\ 200 * n < 3 * Plotting.total_count data) ->
  Sorted Plotting.category_lt (Plotting.filtered_data data convert_countries)
  /\ "Others" ∈ category <$> Plotting.filtered_data data convert_countries.
Proof.
  intros Hnn Hbound (c & n & Hin & Hn & Hsmall).
  assert (Hrange : Plotting.exact_total data < 2 ^ 63) by lia.
  destruct (filtered_data_unfold data convert_countries) as (rows & Hrows & Hfd).
  cbv zeta in Hfd. rewrite Hfd. clear Hfd.
  destruct (others_exact data rows
              (fun r => Plotting.percentage_lt_threshold
                          (count r) (Plotting.total_count data))
              Hnn Hrange Hrows) as (Hsorted_nn & _ & _ & ->).
  assert (Hrow : exists r, r ∈ sort_values rows /\ count r = n).
  { assert (Hn_in : n ∈ snd <$> Plotting.notna data).
    { unfold Plotting.notna. apply list_elem_of_fmap. exists (c, n). split; [reflexivity|].
      apply list_elem_of_omap. exists (Some c, n). split; [assumption | reflexivity]. }
    rewrite <- Hrows in Hn_in. apply list_elem_of_fmap in Hn_in as (r & Hr & Hr_in).
    exists r. split; [by rewrite sort_values_perm | by rewrite Hr]. }
  destruct Hrow as (r & Hr_in & Hr_count).
  assert (Hothers :
    0 < sum_counts (List.filter
                      (fun r => Plotting.percentage_lt_threshold
                                  (count r) (Plotting.total_count data))
                      (sort_values rows))).
  { assert (Hle : count r <= sum_counts (List.filter
                      (fun r => Plotting.percentage_lt_threshold
                                  (count r) (Plotting.total_count data))
                      (sort_values rows))).
    { apply count_le_sum_counts; [by apply nonnegative_counts_filter|].
      apply elem_of_List_filter. split; [assumption|].
      unfold Plotting.percentage_lt_threshold. rewrite Hr_count.
      destruct (Z.ltb_spec 0 (Plotting.total_count data)); [|lia].
      apply Z.ltb_lt. lia. }
    lia. }
  apply Z.ltb_lt in Hothers. rewrite Hothers.
  split; [apply Sorted_groupby_sum|].
  apply (category_groupby_sum_last _ ("Others", _)).
Qed.

Lemma filtered_data_by_category_with_others_witness :
  "Others" ∈ category <$>
    @Plotting.filtered_data merge_sort_values
      [(Some "US", 70); (Some "DE", 29); (Some "FR", 1)] false.
Proof.
  apply (@filtered_data_by_category_with_others merge_sort_values
           [(Some "US", 70); (Some "DE", 29); (Some "FR", 1)] false).
  - repeat constructor; cbn; lia.
  - vm_compute. reflexivity.
  - exists "FR", 1. split; [|split; [lia | vm_compute; reflexivity]].
    apply list_elem_of_further, list_elem_of_further, list_elem_of_here.
Defined.

Example filtered_data_by_category_example :
  @Plotting.filtered_data merge_sort_values
    [(Some "US", 70); (Some "DE", 29); (Some "FR", 1)] false
  = [("DE", 29); ("Others", 1); ("US", 70)].
Proof. vm_compute. reflexivity. Qed.

(** ** The roll-up into Others (ethereum_classic.py) *)

Lemma sum_counts_count_node (data : list EthereumClassic.node) (counts : table) :
  sum_counts (fold_left EthereumClassic.count_node data counts)
  = sum_counts counts
    + Z.of_nat (length (List.filter EthereumClassic.counted data)).
Proof.
  revert counts. induction data as [|n data IH]; intros counts.
  - cbn [fold_left List.filter length]. lia.
  - cbn [fold_left List.filter]. rewrite IH.
    destruct n as [| |[org|]]; cbn [EthereumClassic.count_node EthereumClassic.counted];
      rewrite ?sum_counts_incr, ?length_cons; try lia.
    destruct (String.eqb org ""); cbn [negb];
      rewrite ?sum_counts_incr, ?length_cons; lia.
Qed.

(** X15. The roll-up of
    [EthereumClassicAnalyzer.process_hosting_distribution] loses no
    node: the counts of the table, the [Others] row included, sum to
    the number of nodes that the loop counts, which are all nodes but
    those whose organization is empty or [None]. *)
Theorem ethereum_classic_hosting_keeps_total `{SortValues}
        (data : list EthereumClassic.node) :
  sum_counts (EthereumClassic.process_hosting_distribution data)
  = Z.of_nat (length (List.filter EthereumClassic.counted data)).
Proof.
  unfold EthereumClassic.process_hosting_distribution.
  pose proof (sum_counts_count_node data []) as Hsum.
  change (sum_counts []) with 0 in Hsum.
  destruct (fold_left EthereumClassic.count_node data []) as [|r counts] eqn:Hcounts.
  - change (sum_counts []) with 0 in *. lia.
  - rewrite sum_counts_app, sum_counts_cons. change (sum_counts []) with 0.
    unfold count at 2. cbn [snd].
    set (df := sort_values (r :: counts)).
    set (below := fun r0 : row =>
                    EthereumClassic.percentage_hundredths (count r0) (sum_counts df)
                    <? EthereumClassic.others_threshold).
    assert (Hsplit : sum_counts (List.filter (fun r0 => negb (below r0)) df)
                     + sum_counts (List.filter below df) = sum_counts df).
    { apply sum_counts_split. apply Forall_forall. intros r0 _. by left. }
    assert (Hdf : sum_counts df = sum_counts (r :: counts))
      by apply sum_counts_sort_values.
    unfold below in *. cbv beta in *. lia.
Qed.

Example ethereum_classic_hosting_example :
  @EthereumClassic.process_hosting_distribution merge_sort_values
    [ EthereumClassic.Org (Some "AS24940 Hetzner Online GmbH");
      EthereumClassic.NoOrg; EthereumClassic.Broken;
      EthereumClassic.Org None; EthereumClassic.Org (Some "") ]
  = [("Unknown", 2); ("Hetzner Online GmbH", 1); ("Others", 0)].
Proof. vm_compute. reflexivity. Qed.

(** ** Retries and their end (total_node_count_fetch_data.py) *)

Lemma attempts_after_transport_failure (J : Type)
      (requests_request : nat -> outcome (Utils.response J))
      (retries attempt : nat) (rest : list nat) :
  NodeCounts.transport_failure requests_request attempt ->
  Nat.eqb attempt (retries - 1) = false ->
  NodeCounts.attempts J requests_request retries (attempt :: rest)
  = (fst (NodeCounts.attempts J requests_request retries rest),
     NodeCounts.Requested attempt :: NodeCounts.Slept (1 * (attempt + 1))
       :: snd (NodeCounts.attempts J requests_request retries rest)).
Proof.
  intros Hfail Hlast. apply transport_failure_attempt_try in Hfail as (e & He & Htry).
  cbn [NodeCounts.attempts]. rewrite Htry, He, Hlast.
  destruct (NodeCounts.attempts J requests_request retries rest). reflexivity.
Qed.

(** X16. When the first [k] requests of [_make_request] fail in
    transport, for [k] below 3, and the next one succeeds, the function
    returns the parsed document of that request, having made [k + 1]
    requests and slept 1, ..., [k] seconds between them. *)
Theorem fetcher_retries_until_success (J : Type)
        (requests_request : nat -> outcome (Utils.response J))
        (k : nat) (data : J) :
  (k < 3)%nat ->
  (forall j, (j < k)%nat -> NodeCounts.transport_failure requests_request j) ->
  NodeCounts.attempt_try J requests_request k = Return data ->
  fst (NodeCounts._make_request J requests_request) = Return (Some data)
  /\ NodeCounts.requests_made (snd (NodeCounts._make_request J requests_request)) = S k
  /\ NodeCounts.seconds_slept (snd (NodeCounts._make_request J requests_request)) = seq 1 k.
Proof.
  intros Hk Hfail Hsuccess. unfold NodeCounts._make_request. cbn [seq].
  destruct k as [|[|[|k]]]; [| | |lia].
  - cbn [NodeCounts.attempts]. rewrite Hsuccess. auto.
  - rewrite attempts_after_transport_failure; [|apply Hfail; lia|reflexivity].
    cbn [NodeCounts.attempts]. rewrite Hsuccess. auto.
  - rewrite attempts_after_transport_failure; [|apply Hfail; lia|reflexivity].
    rewrite attempts_after_transport_failure; [|apply Hfail; lia|reflexivity].
    cbn [NodeCounts.attempts]. rewrite Hsuccess. auto.
Qed.

Lemma fetcher_retries_until_success_witness :
  fst (NodeCounts._make_request Z
         (fun n => if (n <? 2)%nat then Raise Timeout
                   else Return {| Utils.raise_for_status := Return tt;
                                  Utils.json := Return 42 |}))
  = Return (Some 42).
Proof.
  apply (fetcher_retries_until_success Z
           (fun n => if (n <? 2)%nat then Raise Timeout
                     else Return {| Utils.raise_for_status := Return tt;
                                    Utils.json := Return 42 |}) 2%nat 42).
  - lia.
  - intros j Hj. exists Timeout. split; [reflexivity|]. left.
    destruct j as [|[|j]]; [reflexivity | reflexivity | lia].
  - reflexivity.
Defined.

(** X17. An exception of a request of [_make_request] that is not a
    [RequestException] is not retried. After [k] transport failures,
    for [k] below 3, such an exception ends the function with [k + 1]
    requests made: a [json.JSONDecodeError] makes it return [None],
    and any other exception leaves the function. *)
Theorem fetcher_no_retry_outside_transport (J : Type)
        (requests_request : nat -> outcome (Utils.response J))
        (k : nat) (e : exn) :
  (k < 3)%nat ->
  (forall j, (j < k)%nat -> NodeCounts.transport_failure requests_request j) ->
  NodeCounts.attempt_try J requests_request k = Raise e ->
  isinstance_RequestException e = false ->
  fst (NodeCounts._make_request J requests_request)
  = (if isinstance_JSONDecodeError e then Return None else Raise e)
  /\ NodeCounts.requests_made (snd (NodeCounts._make_request J requests_request)) = S k
  /\ NodeCounts.seconds_slept (snd (NodeCounts._make_request J requests_request)) = seq 1 k.
Proof.
  intros Hk Hfail Hraise He. unfold NodeCounts._make_request. cbn [seq].
  destruct k as [|[|[|k]]]; [| | |lia].
  - cbn [NodeCounts.attempts]. rewrite Hraise, He.
    destruct (isinstance_JSONDecodeError e); auto.
  - rewrite attempts_after_transport_failure; [|apply Hfail; lia|reflexivity].
    cbn [NodeCounts.attempts]. rewrite Hraise, He.
    destruct (isinstance_JSONDecodeError e); auto.
  - rewrite attempts_after_transport_failure; [|apply Hfail; lia|reflexivity].
    rewrite attempts_after_transport_failure; [|apply Hfail; lia|reflexivity].
    cbn [NodeCounts.attempts]. rewrite Hraise, He.
    destruct (isinstance_JSONDecodeError e); auto.
Qed.

Lemma fetcher_no_retry_outside_transport_witness :
  fst (NodeCounts._make_request Z
         (fun n => if (n <? 1)%nat then Raise ConnectionError
                   else Return {| Utils.raise_for_status := Return tt;
                                  Utils.json := Raise JSONDecodeError |}))
  = Return None.
Proof.
  apply (fetcher_no_retry_outside_transport Z
           (fun n => if (n <? 1)%nat then Raise ConnectionError
                     else Return {| Utils.raise_for_status := Return tt;
                                    Utils.json := Raise JSONDecodeError |})
           1%nat JSONDecodeError).
  - lia.
  - intros j Hj. exists ConnectionError. split; [reflexivity|]. left.
    destruct j as [|j]; [reflexivity | lia].
  - reflexivity.
  - reflexivity.
Defined.

(** ** All the fetchers (total_node_count_fetch_data.py) *)

Lemma fetch_all_nodes_from (fetchers : list (string * outcome (option Z)))
      (node_counts : gmap string Z) (errors : list string) :
  NoDup (fetchers.*1) ->
  (forall name, name ∈ fetchers.*1 -> node_counts !! name = None) ->
  (forall name count,
      fst (fold_left NodeCounts.store_count fetchers (node_counts, errors)) !! name
      = Some count <->
      node_counts !! name = Some count
      \/ ((name, Return (Some count)) ∈ fetchers /\ count <> 0))
  /\ (forall name,
        name ∈ snd (fold_left NodeCounts.store_count fetchers (node_counts, errors)) <->
        name ∈ errors \/ exists e, (name, Raise e) ∈ fetchers).
Proof.
  revert node_counts errors.
  induction fetchers as [|[name0 result] fetchers IH]; intros node_counts errors Hnd Hfresh.
  - cbn [fold_left fst snd]. split.
    + intros name count. split; [by left|].
      intros [Hm | [Hin _]]; [assumption | by apply elem_of_nil in Hin].
    + intros name. split; [by left|].
      intros [Hin | [e Hin]]; [assumption | by apply elem_of_nil in Hin].
  - rewrite fmap_cons in Hnd. cbn [fst] in Hnd. apply NoDup_cons in Hnd as [Hname0 Hnd].
    assert (Hfresh0 : node_counts !! name0 = None)
      by (apply Hfresh; rewrite fmap_cons; apply list_elem_of_here).
    assert (Hfresh' : forall name, name ∈ fetchers.*1 -> node_counts !! name = None)
      by (intros name Hin; apply Hfresh; rewrite fmap_cons; by apply list_elem_of_further).
    assert (Hnot0 : forall r, (name0, r) ∉ fetchers).
    { intros r Hin. apply Hname0. apply list_elem_of_fmap. by exists (name0, r). }
    cbn [fold_left NodeCounts.store_count].
    destruct result as [[count0|]|e0].
    + destruct (Z.eqb_spec count0 0) as [->|Hne].
      * destruct (IH node_counts errors Hnd Hfresh') as [Hcounts Herrors]. split.
        -- intros name count. rewrite Hcounts, elem_of_cons. split.
           ++ intros [Hm | [Hin Hc]]; [by left | right; split; [by right | assumption]].
           ++ intros [Hm | [[[= -> <-] | Hin] Hc]];
                [by left | contradiction | right; by split].
        -- intros name. rewrite Herrors. split.
           ++ intros [Hin | [e Hin]]; [by left | right; exists e; by right].
           ++ intros [Hin | [e Hin]]; [by left|].
              apply elem_of_cons in Hin as [[=] | Hin]. right. by exists e.
      * destruct (IH (<[name0 := count0]> node_counts) errors Hnd) as [Hcounts Herrors].
        { intros name Hin. rewrite lookup_insert_ne; [by apply Hfresh'|].
          intros ->. contradiction. }
        split.
        -- intros name count. rewrite Hcounts, elem_of_cons. split.
           ++ intros [Hm | [Hin Hc]].
              ** destruct (decide (name0 = name)) as [->|Hneq].
                 --- rewrite lookup_insert_eq in Hm. injection Hm as <-.
                     right. split; [by left | assumption].
                 --- rewrite lookup_insert_ne in Hm by assumption. by left.
              ** right. split; [by right | assumption].
           ++ intros [Hm | [[[= -> <-] | Hin] Hc]].
              ** left. rewrite lookup_insert_ne; [assumption|]. intros ->. congruence.
              ** left. apply lookup_insert_eq.
              ** right. by split.
        -- intros name. rewrite Herrors. split.
           ++ intros [Hin | [e Hin]]; [by left | right; exists e; by right].
           ++ intros [Hin | [e Hin]]; [by left|].
              apply elem_of_cons in Hin as [[=] | Hin]. right. by exists e.
    + destruct (IH node_counts errors Hnd Hfresh') as [Hcounts Herrors]. split.
      * intros name count. rewrite Hcounts, elem_of_cons. split.
        -- intros [Hm | [Hin Hc]]; [by left | right; split; [by right | assumption]].
        -- intros [Hm | [[[=] | Hin] Hc]]; [by left | right; by split].
      * intros name. rewrite Herrors. split.
        -- intros [Hin | [e Hin]]; [by left | right; exists e; by right].
        -- intros [Hin | [e Hin]]; [by left|].
           apply elem_of_cons in Hin as [[=] | Hin]. right. by exists e.
    + destruct (IH node_counts (errors ++ [name0]) Hnd Hfresh') as [Hcounts Herrors]. split.
      * intros name count. rewrite Hcounts, elem_of_cons. split.
        -- intros [Hm | [Hin Hc]]; [by left | right; split; [by right | assumption]].
        -- intros [Hm | [[[=] | Hin] Hc]]; [by left | right; by split].
      * intros name. rewrite Herrors, elem_of_app, list_elem_of_singleton. split.
        -- intros [[Hin | ->] | [e Hin]].
           ++ by left.
           ++ right. exists e0. apply list_elem_of_here.
           ++ right. exists e. by right.
        -- intros [Hin | [e Hin]]; [left; by left|].
           apply elem_of_cons in Hin as [[= -> <-] | Hin]; [left; by right|].
           right. by exists e.
Qed.

(** X18. [fetch_all_nodes] returns for all results of the fetchers: a
    network is a key of the returned dict exactly when its fetcher
    returned a count other than zero, which is then its value; a
    fetcher that returns [None] or zero or that raises leaves its
    network out, and the networks logged as errors are those whose
    fetcher raised. The names of the fetchers are distinct, as the
    keys of the dict [fetchers] are. *)
Theorem fetch_all_nodes_keeps_nonzero_counts
        (fetchers : list (string * outcome (option Z))) :
  NoDup (fetchers.*1) ->
  (forall name count,
      fst (NodeCounts.fetch_all_nodes fetchers) !! name = Some count <->
      (name, Return (Some count)) ∈ fetchers /\ count <> 0)
  /\ (forall name,
        name ∈ snd (NodeCounts.fetch_all_nodes fetchers) <->
        exists e, (name, Raise e) ∈ fetchers).
Proof.
  intros Hnd. unfold NodeCounts.fetch_all_nodes.
  destruct (fetch_all_nodes_from fetchers ∅ [] Hnd) as [Hcounts Herrors].
  { intros name _. apply lookup_empty. }
  split.
  - intros name count. rewrite Hcounts, lookup_empty. split.
    + intros [[=] | Hin]. exact Hin.
    + intros Hin. by right.
  - intros name. rewrite Herrors. split.
    + intros [Hin | Hin]; [by apply elem_of_nil in Hin | exact Hin].
    + intros Hin. by right.
Qed.

Lemma fetch_all_nodes_keeps_nonzero_counts_witness :
  fst (NodeCounts.fetch_all_nodes
         [("Bitcoin", Return (Some 21000)); ("Cardano", Return None);
          ("Polygon", Raise RuntimeError); ("Ripple", Return (Some 0))])
    !! "Bitcoin" = Some 21000.
Proof.
  apply (fetch_all_nodes_keeps_nonzero_counts
           [("Bitcoin", Return (Some 21000)); ("Cardano", Return None);
            ("Polygon", Raise RuntimeError); ("Ripple", Return (Some 0))]).
  - apply (bool_decide_unpack (NoDup ["Bitcoin"; "Cardano"; "Polygon"; "Ripple"])).
    vm_compute. reflexivity.
  - split; [apply list_elem_of_here | lia].
Defined.

(** ** Pages of pools (total_node_count_fetch_data.py) *)

Section paging_properties.

Context {pool : Type} (request_page : nat -> option (list pool)).

Lemma collect_pools_until_short_page (d fuel page : nat) (all_pools : list pool) :
  (forall p, (page <= p < page + d)%nat ->
             (100 <= NodeCounts.page_size pool request_page p)%nat) ->
  (NodeCounts.page_size pool request_page (page + d) < 100)%nat ->
  (d < fuel)%nat ->
  exists pools,
    NodeCounts.collect_pools pool request_page fuel page all_pools = Some pools
    /\ length pools
       = (length all_pools
          + sum_list (NodeCounts.page_size pool request_page <$> seq page (S d)))%nat.
Proof.
  revert fuel page all_pools.
  induction d as [|d IH]; intros fuel page all_pools Hfull Hshort Hfuel.
  - destruct fuel as [|fuel]; [lia|]. cbn [NodeCounts.collect_pools seq fmap list_fmap sum_list sum_list_with].
    rewrite Nat.add_0_r in Hshort. unfold NodeCounts.page_size in *.
    destruct (request_page page) as [[|x data]|].
    + exists all_pools. split; [reflexivity | cbn; lia].
    + apply Nat.ltb_lt in Hshort. rewrite Hshort.
      exists (all_pools ++ x :: data). split; [reflexivity|].
      rewrite length_app. cbn. lia.
    + exists all_pools. split; [reflexivity | cbn; lia].
  - destruct fuel as [|fuel]; [lia|]. cbn [NodeCounts.collect_pools].
    assert (Hpage : (100 <= NodeCounts.page_size pool request_page page)%nat)
      by (apply Hfull; lia).
    unfold NodeCounts.page_size in Hpage.
    destruct (request_page page) as [[|x data]|] eqn:Hreq; cbn [length] in Hpage; try lia.
    assert (Hltb : (length (x :: data) <? 100)%nat = false)
      by (apply Nat.ltb_ge; cbn [length]; lia).
    rewrite Hltb.
    destruct (IH fuel (S page) (all_pools ++ x :: data)) as (pools & Hpools & Hlen).
    + intros p Hp. apply Hfull. lia.
    + replace (S page + d)%nat with (page + S d)%nat by lia. exact Hshort.
    + lia.
    + exists pools. split; [exact Hpools|]. rewrite Hlen, length_app.
      change (seq page (S (S d))) with (page :: seq (S page) (S d)).
      rewrite fmap_cons. cbn [sum_list sum_list_with].
      assert (Hsize : NodeCounts.page_size pool request_page page = length (x :: data))
        by (unfold NodeCounts.page_size; by rewrite Hreq).
      rewrite Hsize. unfold id. lia.
Qed.

Lemma collect_pools_full_pages (fuel page : nat) (all_pools : list pool) :
  (forall p, (page <= p)%nat -> (100 <= NodeCounts.page_size pool request_page p)%nat) ->
  NodeCounts.collect_pools pool request_page fuel page all_pools = None.
Proof.
  revert page all_pools. induction fuel as [|fuel IH]; intros page all_pools Hfull;
    [reflexivity|].
  cbn [NodeCounts.collect_pools].
  assert (Hpage : (100 <= NodeCounts.page_size pool request_page page)%nat)
    by (apply Hfull; lia).
  unfold NodeCounts.page_size in Hpage.
  destruct (request_page page) as [[|x data]|]; cbn [length] in Hpage; try lia.
  assert (Hltb : (length (x :: data) <? 100)%nat = false)
    by (apply Nat.ltb_ge; cbn [length]; lia).
  rewrite Hltb. apply IH. intros p Hp. apply Hfull. lia.
Qed.

(** X19. [fetch_cardano_nodes] asks for the pages 1, 2, ... and stops
    at the first page that fails, is empty or has fewer than 100
    pools. When that page is page [k] and the pages before it have at
    least 100 pools each, the function returns after [k] requests with
    the number of pools of the pages 1 to [k], or with [None] when that
    number is zero. When every page has at least 100 pools it does not
    return within any number of requests. *)
Theorem fetch_cardano_nodes_stops_at_short_page :
  (forall k fuel : nat,
      (1 <= k <= fuel)%nat ->
      (forall p, (1 <= p < k)%nat ->
                 (100 <= NodeCounts.page_size pool request_page p)%nat) ->
      (NodeCounts.page_size pool request_page k < 100)%nat ->
      NodeCounts.fetch_cardano_nodes pool request_page fuel
      = Some (match sum_list (NodeCounts.page_size pool request_page <$> seq 1 k) with
              | O => None
              | total => Some total
              end))
  /\ ((forall p, (1 <= p)%nat ->
                 (100 <= NodeCounts.page_size pool request_page p)%nat) ->
      forall fuel, NodeCounts.fetch_cardano_nodes pool request_page fuel = None).
Proof.
  split.
  - intros k fuel Hk Hfull Hshort. unfold NodeCounts.fetch_cardano_nodes.
    destruct k as [|d]; [lia|].
    destruct (collect_pools_until_short_page d fuel 1 []) as (pools & -> & Hlen).
    + intros p Hp. apply Hfull. lia.
    + replace (1 + d)%nat with (S d) by lia. exact Hshort.
    + lia.
    + cbn [length] in Hlen. rewrite Nat.add_0_l in Hlen. rewrite <- Hlen.
      destruct pools; reflexivity.
  - intros Hfull fuel. unfold NodeCounts.fetch_cardano_nodes.
    rewrite collect_pools_full_pages; [reflexivity | exact Hfull].
Qed.

End paging_properties.

Lemma fetch_cardano_nodes_stops_at_short_page_witness :
  NodeCounts.fetch_cardano_nodes nat
    (fun p => if (p <? 3)%nat then Some (seq 0 100) else Some (seq 0 37)) 5
  = Some (Some 237%nat).
Proof.
  apply (proj1 (fetch_cardano_nodes_stops_at_short_page
                  (fun p => if (p <? 3)%nat then Some (seq 0 100) else Some (seq 0 37)))
           3%nat 5%nat).
  - lia.
  - intros p Hp. unfold NodeCounts.page_size.
    destruct p as [|[|[|p]]]; [lia | cbn; lia | cbn; lia | lia].
  - vm_compute. lia.
Defined.

(** ** The properties above on concrete inputs *)

Lemma bitcoin_client_table_counts_above_one_witness :
  "Bitcoin Core" ∈ Bitcoin.client_names.
Proof.
  apply (proj2 (proj2 (proj2 (@bitcoin_client_table_counts_above_one merge_sort_values)
                         [ {| Bitcoin.user_agent := Some "/Satoshi:27.0.0/";
                              Bitcoin.hostname := None; Bitcoin.country_code := Some "DE";
                              Bitcoin.asn := Some "AS24940" |};
                           {| Bitcoin.user_agent := Some "/Satoshi:25.0.0/";
                              Bitcoin.hostname := None; Bitcoin.country_code := Some "US";
                              Bitcoin.asn := Some "AS16509" |} ]))
           ("Bitcoin Core", 2)).
  vm_compute. apply list_elem_of_here.
Defined.


Lemma solana_api_only_counts_every_node_witness :
  contains "Custom" "Custom validator 1.18" = true
  /\ contains "MEV" "Custom validator 1.18" = false.
Proof.
  apply (proj2 (proj2 (proj2 (proj2
           (@solana_api_only_counts_every_node merge_sort_values []))))
           "Custom validator 1.18").
  vm_compute. reflexivity.
Defined.

Lemma solana_hosting_counts_above_two_witness :
  exists org, Solana.hosting_category org = Some "Hetzner".
Proof.
  apply (proj2 (proj2 (proj2 (@solana_hosting_counts_above_two merge_sort_values
                                (fun ip => negb (String.eqb ip ""))
                                [ Solana.Dict (Some (VStr "65.21.0.1:8001")) None;
                                  Solana.Dict (Some (VStr "65.21.0.1:8002")) None;
                                  Solana.Dict (Some (VStr "65.21.0.1:8003")) None ])
                         (fun _ => Return (Some "Hetzner Online GmbH"))))
           ("Hetzner", 3)).
  vm_compute. apply list_elem_of_here.
Defined.

Lemma extract_client_name_up_to_first_colon_witness :
  Utils.extract_client_name VNone = "Unknown".
Proof.
  apply (proj2 extract_client_name_up_to_first_colon VNone). discriminate.
Defined.
